(** * rtplivelib: the audio encoder (src/codec/audioencoder.cpp)

    A shallow embedding of [AudioEncoderPrivateData] and of the worker
    entry points of [AudioEncoder].  The FFmpeg calls and the logger are
    external collaborators: every call to one of them is appended to a
    trace, and what a call returns is read from a [Backend], indexed by
    the number of earlier calls to the same function. *)

From Stdlib Require Import ZArith List String Bool Lia.
Import ListNotations.

Local Open Scope Z_scope.

(** ** Declarations the translation unit includes *)

Module core.

(** Modelled from the spec: the declaration of core::Format is in a
    header that is not part of the sources; the spec's format descriptor
    has a sample width, a channel count, a sample rate and a layout tag,
    and is a value type compared by equality. *)
Record Format : Type := mkFormat
  { bits : Z; channels : Z; sample_rate : Z; layout : Z }.

Definition Format_eqb (a b : Format) : bool :=
  (bits a =? bits b) && (channels a =? channels b)
  && (sample_rate a =? sample_rate b) && (layout a =? layout b).

(** A raw frame: the encoder reads nothing of it but its format. *)
Record FramePacket : Type := mkFramePacket
  { format : Format; data : list Z }.

Inductive MessageNum : Type :=
| Codec_codec_open_failed
| Codec_encoder_not_found
| Codec_codec_context_alloc_failed
| Codec_encoder_init_success.

End core.

Inductive LogLevel : Type := INFO_LEVEL | WARNING_LEVEL.

(** ** libavcodec / libavutil data *)

Inductive AVSampleFormat : Type :=
| AV_SAMPLE_FMT_NONE
| AV_SAMPLE_FMT_U8
| AV_SAMPLE_FMT_S16
| AV_SAMPLE_FMT_S32
| AV_SAMPLE_FMT_FLT
| AV_SAMPLE_FMT_DBL.

(** The enumerators' values, as stored in the [int] field AVFrame::format. *)
Definition sample_fmt_value (f : AVSampleFormat) : Z :=
  match f with
  | AV_SAMPLE_FMT_NONE => -1
  | AV_SAMPLE_FMT_U8 => 0
  | AV_SAMPLE_FMT_S16 => 1
  | AV_SAMPLE_FMT_S32 => 2
  | AV_SAMPLE_FMT_FLT => 3
  | AV_SAMPLE_FMT_DBL => 4
  end.

Definition AV_CH_LAYOUT_STEREO : Z := 3.

(** An encoder implementation.  [supported_samplerates] is the pointer of
    the same name: [None] is the null pointer, [Some a] the [int]s stored
    from the pointer on (the array is meant to end with a 0). *)
Record AVCodec : Type := mkAVCodec
  { id : Z;
    long_name : string;
    supported_samplerates : option (list Z) }.

(** A codec context.  [handle] stands for the address of the context (the
    index of the allocation that made it) and [opened] records whether
    avcodec_open2 has succeeded on it; the source reads neither. *)
Record AVCodecContext : Type := mkAVCodecContext
  { handle : nat;
    sample_fmt : AVSampleFormat;
    bit_rate : Z;
    ctx_sample_rate : Z;
    channel_layout : Z;
    ctx_channels : Z;
    frame_size : Z;
    opened : bool }.

Record AVFrame : Type := mkAVFrame
  { nb_samples : Z; frame_format : Z; frame_channel_layout : Z }.

(** What av_frame_alloc and avcodec_alloc_context3 hand out. *)
Definition fresh_frame : AVFrame :=
  {| nb_samples := 0; frame_format := -1; frame_channel_layout := 0 |}.

Definition fresh_context (h : nat) : AVCodecContext :=
  {| handle := h; sample_fmt := AV_SAMPLE_FMT_NONE; bit_rate := 0;
     ctx_sample_rate := 0; channel_layout := 0; ctx_channels := 0;
     frame_size := 0; opened := false |}.

(** ** The collaborators *)

Inductive Event : Type :=
| Print_APP_Info (code : core.MessageNum) (api : string) (lvl : LogLevel)
                 (detail : option string)
| Print_FFMPEG_Info (ret : Z) (api : string) (lvl : LogLevel)
| Call_find_encoder_by_name (name : string) (found : option AVCodec)
| Call_alloc_context3 (ok : bool)
| Call_open2 (ctx : nat) (ret : Z)
| Call_free_context (ctx : nat)
| Call_frame_alloc (ok : bool).

Definition is_find (e : Event) : bool :=
  match e with Call_find_encoder_by_name _ _ => true | _ => false end.
Definition is_alloc_context3 (e : Event) : bool :=
  match e with Call_alloc_context3 _ => true | _ => false end.
Definition is_open2 (e : Event) : bool :=
  match e with Call_open2 _ _ => true | _ => false end.
Definition is_frame_alloc (e : Event) : bool :=
  match e with Call_frame_alloc _ => true | _ => false end.
Definition is_open2_success (e : Event) : bool :=
  match e with Call_open2 _ r => 0 <=? r | _ => false end.
Definition is_free_context (e : Event) : bool :=
  match e with Call_free_context _ => true | _ => false end.
Definition is_warning (e : Event) : bool :=
  match e with
  | Print_APP_Info _ _ WARNING_LEVEL _ | Print_FFMPEG_Info _ _ WARNING_LEVEL => true
  | _ => false
  end.

(** How many events of a kind a trace holds. *)
Definition calls (p : Event -> bool) (tr : list Event) : nat :=
  List.length (List.filter p tr).

(** The answers of the FFmpeg library: the [n]-th call (from 0) of each
    function returns what the backend says for [n]. *)
Record Backend : Type := mkBackend
  { avcodec_find_encoder_by_name : nat -> string -> option AVCodec;
    avcodec_alloc_context3 : nat -> bool;
    avcodec_open2 : nat -> Z;
    negotiated_frame_size : nat -> Z;
    av_frame_alloc : nat -> bool }.

(** ** AudioEncoderPrivateData *)

(** The members the methods read or write ([queue] and [payload_type] are
    never touched after construction). *)
Record AudioEncoderPrivateData : Type := mkPrivateData
  { encoder : option AVCodec;
    encoder_ctx : option AVCodecContext;
    format : core.Format;
    encode_frame : option AVFrame;
    reassignment : bool }.

(** The object right after its constructor; [fmt0] is what the default
    constructor of core::Format leaves in [format]. *)
Definition new_private_data (fmt0 : core.Format) : AudioEncoderPrivateData :=
  {| encoder := None; encoder_ctx := None; format := fmt0;
     encode_frame := None; reassignment := false |}.

Definition set_encoder (v : option AVCodec) (d : AudioEncoderPrivateData) :=
  {| encoder := v; encoder_ctx := encoder_ctx d; format := format d;
     encode_frame := encode_frame d; reassignment := reassignment d |}.
Definition set_encoder_ctx (v : option AVCodecContext) (d : AudioEncoderPrivateData) :=
  {| encoder := encoder d; encoder_ctx := v; format := format d;
     encode_frame := encode_frame d; reassignment := reassignment d |}.
Definition set_format (v : core.Format) (d : AudioEncoderPrivateData) :=
  {| encoder := encoder d; encoder_ctx := encoder_ctx d; format := v;
     encode_frame := encode_frame d; reassignment := reassignment d |}.
Definition set_encode_frame (v : option AVFrame) (d : AudioEncoderPrivateData) :=
  {| encoder := encoder d; encoder_ctx := encoder_ctx d; format := format d;
     encode_frame := v; reassignment := reassignment d |}.
Definition set_reassignment (v : bool) (d : AudioEncoderPrivateData) :=
  {| encoder := encoder d; encoder_ctx := encoder_ctx d; format := format d;
     encode_frame := encode_frame d; reassignment := v |}.

(** ** A state monad with a trace and one fault *)

(** A method either returns, with the object and the trace it leaves, or
    reads a field through a null pointer. *)
Inductive res (A : Type) : Type :=
| Done (a : A) (d : AudioEncoderPrivateData) (tr : list Event)
| NullDeref.
Arguments Done {A} a d tr.
Arguments NullDeref {A}.

Definition M (A : Type) : Type :=
  AudioEncoderPrivateData -> list Event -> res A.

Definition ret {A} (a : A) : M A := fun d tr => Done a d tr.

Definition bind {A B} (m : M A) (k : A -> M B) : M B :=
  fun d tr =>
    match m d tr with
    | Done a d' tr' => k a d' tr'
    | NullDeref => NullDeref
    end.

Notation "x <- m ;; k" := (bind m (fun x => k))
  (at level 61, m at next level, right associativity).
Notation "m ;;; k" := (bind m (fun _ => k))
  (at level 61, right associativity).

Definition get : M AudioEncoderPrivateData := fun d tr => Done d d tr.
Definition modify (f : AudioEncoderPrivateData -> AudioEncoderPrivateData) : M unit :=
  fun d tr => Done tt (f d) tr.
Definition emit (e : Event) : M unit := fun d tr => Done tt d (tr ++ [e]).
Definition count_calls (p : Event -> bool) : M nat :=
  fun d tr => Done (calls p tr) d tr.
Definition null_deref {A} : M A := fun _ _ => NullDeref.

(** Where a call of [encode] leaves the function. *)
Inductive Outcome : Type :=
| OpenFailed        (* line 176: open_ctx returned false *)
| NothingToFlush    (* line 182: null packet and null context *)
| StagingRefused    (* line 186: alloc_encode_frame returned false *)
| EncodingStep.     (* line 188: control reaches the encoding step *)

Section Methods.

Variable B : Backend.

(** alloc_encode_frame, lines 40-52. *)
Definition alloc_encode_frame : M bool :=
  d <- get ;;
  match encode_frame d with
  | None =>
      n <- count_calls is_frame_alloc ;;
      emit (Call_frame_alloc (av_frame_alloc B n)) ;;;
      modify (set_encode_frame
                (if av_frame_alloc B n then Some fresh_frame else None))
  | Some _ => ret tt
  end ;;;
  d <- get ;;
  match encode_frame d with
  | Some _ =>
      if reassignment d then
        match encoder_ctx d with
        | None => null_deref
        | Some c =>
            modify (set_encode_frame
                      (Some {| nb_samples := frame_size c;
                               frame_format := sample_fmt_value (sample_fmt c);
                               frame_channel_layout := channel_layout c |})) ;;;
            modify (set_reassignment false) ;;;
            ret true
        end
      else ret false
  | None => ret false
  end.

(** encode from line 185 on: the staging step, then the encoding step
    (which is empty in this source). *)
Definition encode_staging : M Outcome :=
  ok <- alloc_encode_frame ;;
  if ok then ret EncodingStep else ret StagingRefused.

(** encode(nullptr), lines 172-192 with [packet == nullptr].  [encode]
    calls itself only through open_ctx and close_ctx, and there with a
    null packet, so this branch is defined first. *)
Definition encode_nullptr : M Outcome :=
  d <- get ;;
  match encoder_ctx d with
  | None => ret NothingToFlush
  | Some _ => encode_staging
  end.

(** avcodec_free_context(&encoder_ctx): frees and nulls the pointer. *)
Definition free_context : M unit :=
  d <- get ;;
  match encoder_ctx d with
  | None => ret tt
  | Some c => emit (Call_free_context (handle c)) ;;;
              modify (set_encoder_ctx None)
  end.

(** close_ctx, lines 158-163. *)
Definition close_ctx : M unit :=
  d <- get ;;
  match encoder_ctx d with
  | None => ret tt
  | Some _ => encode_nullptr ;;; free_context
  end.

(** _set_encoder_param, lines 239-267. *)
Definition _set_encoder_param (fmt : core.Format) : M unit :=
  d <- get ;;
  match encoder_ctx d with
  | None => null_deref
  | Some c =>
      modify (set_encoder_ctx
                (Some {| handle := handle c;
                         sample_fmt := AV_SAMPLE_FMT_S16;
                         bit_rate := 64000;
                         ctx_sample_rate := 44100;
                         channel_layout := AV_CH_LAYOUT_STEREO;
                         ctx_channels := 2;
                         frame_size := frame_size c;
                         opened := opened c |}))
  end.

(** _init_encoder, lines 204-233. *)
Definition _init_encoder (name : string) (fmt : core.Format) : M bool :=
  let api := "codec::AEPD::_init_encoder"%string in
  n <- count_calls is_find ;;
  emit (Call_find_encoder_by_name name (avcodec_find_encoder_by_name B n name)) ;;;
  modify (set_encoder (avcodec_find_encoder_by_name B n name)) ;;;
  d <- get ;;
  match encoder d with
  | None =>
      emit (Print_APP_Info core.Codec_encoder_not_found api WARNING_LEVEL
                           (Some name)) ;;;
      ret false
  | Some codec =>
      free_context ;;;
      k <- count_calls is_alloc_context3 ;;
      emit (Call_alloc_context3 (avcodec_alloc_context3 B k)) ;;;
      modify (set_encoder_ctx
                (if avcodec_alloc_context3 B k
                 then Some (fresh_context k) else None)) ;;;
      d <- get ;;
      match encoder_ctx d with
      | None =>
          emit (Print_APP_Info core.Codec_codec_context_alloc_failed api
                               WARNING_LEVEL None) ;;;
          ret false
      | Some _ =>
          _set_encoder_param fmt ;;;
          emit (Print_APP_Info core.Codec_encoder_init_success api
                               INFO_LEVEL (Some (long_name codec))) ;;;
          ret true
      end
  end.

(** avcodec_open2(encoder_ctx, encoder, nullptr): on success the context
    is open and carries the frame size the codec settled on. *)
Definition open2 : M Z :=
  d <- get ;;
  match encoder_ctx d with
  | None => null_deref
  | Some c =>
      n <- count_calls is_open2 ;;
      emit (Call_open2 (handle c) (avcodec_open2 B n)) ;;;
      (if avcodec_open2 B n <? 0 then ret tt
       else modify (set_encoder_ctx
                      (Some {| handle := handle c;
                               sample_fmt := sample_fmt c;
                               bit_rate := bit_rate c;
                               ctx_sample_rate := ctx_sample_rate c;
                               channel_layout := channel_layout c;
                               ctx_channels := ctx_channels c;
                               frame_size := negotiated_frame_size B n;
                               opened := true |}))) ;;;
      ret (avcodec_open2 B n)
  end.

(** open_ctx, lines 127-152. *)
Definition open_ctx (packet : core.FramePacket) : M bool :=
  let api := "codec::AEPD::open_ctx"%string in
  d <- get ;;
  if match encoder_ctx d with Some _ => true | None => false end
     && core.Format_eqb (format d) (core.format packet)
  then ret true
  else
    close_ctx ;;;
    ok <- _init_encoder "libfdk_aac" (core.format packet) ;;
    if negb ok then ret false
    else
      r <- open2 ;;
      if r <? 0 then
        emit (Print_APP_Info core.Codec_codec_open_failed api
                             WARNING_LEVEL None) ;;;
        emit (Print_FFMPEG_Info r api WARNING_LEVEL) ;;;
        ret false
      else
        modify (set_format (core.format packet)) ;;;
        modify (set_reassignment true) ;;;
        ret true.

(** encode, lines 172-192; [None] is the null packet. *)
Definition encode (packet : option core.FramePacket) : M Outcome :=
  match packet with
  | Some p =>
      ok <- open_ctx p ;;
      if negb ok then ret OpenFailed else encode_staging
  | None => encode_nullptr
  end.

(** A run of [encode] calls, one after the other. *)
Fixpoint encode_all (ps : list (option core.FramePacket)) : M unit :=
  match ps with
  | [] => ret tt
  | p :: ps' => encode p ;;; encode_all ps'
  end.

End Methods.

(** ** select_sample_rate *)

(** [int] arithmetic: the value of a 32-bit two's complement result. *)
Definition wrap_int (z : Z) : Z := (z + 2147483648) mod 4294967296 - 2147483648.
Definition int_sub (a b : Z) : Z := wrap_int (a - b).
Definition int_abs (a : Z) : Z := wrap_int (Z.abs a).

(** The loop of lines 87-91 over the [int]s at [p], with the running
    [best_samplerate]; [None] when the loop runs past the stored array
    without meeting the terminating 0. *)
Fixpoint select_sample_rate_loop (p : list Z) (best_samplerate : Z) : option Z :=
  match p with
  | [] => None
  | x :: p' =>
      if x =? 0 then Some best_samplerate
      else
        select_sample_rate_loop p'
          (if (best_samplerate =? 0)
              || (int_abs (int_sub 44100 x) <? int_abs (int_sub 44100 best_samplerate))
           then x else best_samplerate)
  end.

(** select_sample_rate, lines 78-93. *)
Definition select_sample_rate (codec : AVCodec) : option Z :=
  match supported_samplerates codec with
  | None => Some 44100
  | Some p => select_sample_rate_loop p 0
  end.

(** A rate on which [44100 - x] and its [abs] stay inside [int], and which
    is not the terminator. *)
Definition rate_ok (x : Z) : Prop :=
  x <> 0 /\ 44100 - 2147483648 < x <= 2147483647.

(** ** AudioEncoder: the worker's entry points *)

(** Modelled from the spec: AudioEncoder::Queue is declared in a header
    that is not part of the sources; the spec's input queue adapter holds
    the frames that are ready, [has_data] tells whether there is one and
    [get_next] takes the first. *)
Record Queue : Type := mkQueue { ready : list core.FramePacket }.

(** Modelled from the spec: Queue::has_data is declared with the queue;
    it tells whether a frame is ready. *)
Definition has_data (q : Queue) : bool :=
  match ready q with [] => false | _ :: _ => true end.

Record AudioEncoder : Type := mkAudioEncoder
  { _queue : option Queue;
    d_ptr : AudioEncoderPrivateData }.

(** get_encoder_id, lines 292-297. *)
Definition get_encoder_id (ae : AudioEncoder) : Z :=
  match encoder (d_ptr ae) with
  | None => 0
  | Some c => id c
  end.

(** get_thread_pause_condition, lines 317-320. *)
Definition get_thread_pause_condition (ae : AudioEncoder) : bool :=
  match _queue ae with
  | None => true
  | Some _ => false
  end.

(** The state the spec calls PAUSED: no queue, or a queue with no ready
    data. *)
Definition queue_null_or_empty (ae : AudioEncoder) : bool :=
  match _queue ae with
  | None => true
  | Some q => negb (has_data q)
  end.

(** The loop of lines 306-309 when no other thread redirects the queue:
    each round takes the next ready frame and encodes it. *)
Fixpoint drain (B : Backend) (frames : list core.FramePacket) : M unit :=
  match frames with
  | [] => ret tt
  | p :: frames' => encode B (Some p) ;;; drain B frames'
  end.

(** on_thread_run, lines 299-310, for one uninterrupted round; the bounded
    wait of line 304 changes nothing the encoder reads. *)
Definition on_thread_run (B : Backend) (ae : AudioEncoder) (tr : list Event)
  : res AudioEncoder :=
  match _queue ae with
  | None => Done ae (d_ptr ae) tr
  | Some q =>
      match drain B (ready q) (d_ptr ae) tr with
      | Done _ d' tr' =>
          Done {| _queue := Some {| ready := [] |}; d_ptr := d' |} d' tr'
      | NullDeref => NullDeref
      end
  end.

(** on_thread_pause, lines 312-315. *)
Definition on_thread_pause (B : Backend) : M Outcome := encode B None.

(** ** Concrete backends and frames used in the examples *)

Definition libfdk_aac : AVCodec :=
  {| id := 86018; long_name := "Fraunhofer FDK AAC";
     supported_samplerates := Some [96000; 48000; 44100; 8000; 0] |}.

(** Every call succeeds. *)
Definition backend_ok : Backend :=
  {| avcodec_find_encoder_by_name := fun _ _ => Some libfdk_aac;
     avcodec_alloc_context3 := fun _ => true;
     avcodec_open2 := fun _ => 0;
     negotiated_frame_size := fun _ => 1024;
     av_frame_alloc := fun _ => true |}.

(** The codec is not built in: resolution fails every time. *)
Definition backend_no_codec : Backend :=
  {| avcodec_find_encoder_by_name := fun _ _ => None;
     avcodec_alloc_context3 := fun _ => true;
     avcodec_open2 := fun _ => 0;
     negotiated_frame_size := fun _ => 1024;
     av_frame_alloc := fun _ => true |}.

(** Activation fails every time (avcodec_open2 returns AVERROR(EINVAL)). *)
Definition backend_open_fails : Backend :=
  {| avcodec_find_encoder_by_name := fun _ _ => Some libfdk_aac;
     avcodec_alloc_context3 := fun _ => true;
     avcodec_open2 := fun _ => -22;
     negotiated_frame_size := fun _ => 1024;
     av_frame_alloc := fun _ => true |}.

(** The first activation succeeds, the later ones fail. *)
Definition backend_second_open_fails : Backend :=
  {| avcodec_find_encoder_by_name := fun _ _ => Some libfdk_aac;
     avcodec_alloc_context3 := fun _ => true;
     avcodec_open2 := fun n => match n with O => 0 | S _ => -22 end;
     negotiated_frame_size := fun _ => 1024;
     av_frame_alloc := fun _ => true |}.

Definition format0 : core.Format := core.mkFormat 0 0 0 0.
Definition format_44k : core.Format := core.mkFormat 16 2 44100 3.
Definition format_48k : core.Format := core.mkFormat 16 2 48000 3.
Definition frame_44k : core.FramePacket := core.mkFramePacket format_44k [].
Definition frame_48k : core.FramePacket := core.mkFramePacket format_48k [].

(** The session after one frame at 44.1 kHz went through [encode] on
    [backend_ok]: open, staging frame in step with it, flag cleared. *)
Definition ctx_open_44k : AVCodecContext :=
  {| handle := 0; sample_fmt := AV_SAMPLE_FMT_S16; bit_rate := 64000;
     ctx_sample_rate := 44100; channel_layout := 3; ctx_channels := 2;
     frame_size := 1024; opened := true |}.

Definition after_first_frame : AudioEncoderPrivateData :=
  {| encoder := Some libfdk_aac;
     encoder_ctx := Some ctx_open_44k;
     format := format_44k;
     encode_frame := Some {| nb_samples := 1024; frame_format := 1;
                             frame_channel_layout := 3 |};
     reassignment := false |}.

Definition trace_first_frame : list Event :=
  [ Call_find_encoder_by_name "libfdk_aac" (Some libfdk_aac);
    Call_alloc_context3 true;
    Print_APP_Info core.Codec_encoder_init_success
                   "codec::AEPD::_init_encoder" INFO_LEVEL
                   (Some "Fraunhofer FDK AAC"%string);
    Call_open2 0 0;
    Call_frame_alloc true ].


(** ** What the properties speak about *)

(** The test at line 128: a context is there and the recorded format is
    the packet's. *)
Definition session_matches (d : AudioEncoderPrivateData) (fmt : core.Format) : bool :=
  match encoder_ctx d with Some _ => true | None => false end
  && core.Format_eqb (format d) fmt.

(** A context as _set_encoder_param leaves a fresh one, and as a
    successful avcodec_open2 leaves that. *)
Definition configured_context (h : nat) : AVCodecContext :=
  {| handle := h; sample_fmt := AV_SAMPLE_FMT_S16; bit_rate := 64000;
     ctx_sample_rate := 44100; channel_layout := AV_CH_LAYOUT_STEREO;
     ctx_channels := 2; frame_size := 0; opened := false |}.

Definition opened_context (h : nat) (fs : Z) : AVCodecContext :=
  {| handle := h; sample_fmt := AV_SAMPLE_FMT_S16; bit_rate := 64000;
     ctx_sample_rate := 44100; channel_layout := AV_CH_LAYOUT_STEREO;
     ctx_channels := 2; frame_size := fs; opened := true |}.

(** The staging frame in step with a context. *)
Definition synced_frame (c : AVCodecContext) : AVFrame :=
  {| nb_samples := frame_size c;
     frame_format := sample_fmt_value (sample_fmt c);
     frame_channel_layout := channel_layout c |}.

(** The answer of the latest codec resolution on a trace. *)
Definition last_resolved (tr : list Event) : option AVCodec :=
  fold_left (fun acc e =>
               match e with
               | Call_find_encoder_by_name _ r => r
               | _ => acc
               end) tr None.

(** Some activation on the trace succeeded: a session was opened. *)
Definition ever_opened (tr : list Event) : bool := existsb is_open2_success tr.

(** Some resolution on the trace found a codec. *)
Definition ever_resolved (tr : list Event) : bool :=
  existsb (fun e => match e with
                    | Call_find_encoder_by_name _ (Some _) => true
                    | _ => false
                    end) tr.

(** The trace of a run, or nothing if the run faulted. *)
Definition trace_of {A} (r : res A) : list Event :=
  match r with Done _ _ tr => tr | NullDeref => [] end.

Definition state_of {A} (r : res A) : option AudioEncoderPrivateData :=
  match r with Done _ d _ => Some d | NullDeref => None end.

(** The session of [after_first_frame] when the next frame, at 48 kHz, met
    a failing avcodec_open2: a second context, configured and never
    opened, under the format recorded for the first. *)
Definition after_failed_reopen : AudioEncoderPrivateData :=
  {| encoder := Some libfdk_aac;
     encoder_ctx := Some (configured_context 1);
     format := format_44k;
     encode_frame := Some {| nb_samples := 1024; frame_format := 1;
                             frame_channel_layout := 3 |};
     reassignment := false |}.

Definition trace_failed_reopen : list Event :=
  trace_first_frame ++
  [ Call_free_context 0;
    Call_find_encoder_by_name "libfdk_aac" (Some libfdk_aac);
    Call_alloc_context3 true;
    Print_APP_Info core.Codec_encoder_init_success
                   "codec::AEPD::_init_encoder" INFO_LEVEL
                   (Some "Fraunhofer FDK AAC"%string);
    Call_open2 1 (-22);
    Print_APP_Info core.Codec_codec_open_failed
                   "codec::AEPD::open_ctx" WARNING_LEVEL None;
    Print_FFMPEG_Info (-22) "codec::AEPD::open_ctx" WARNING_LEVEL ].

(** An encoder object with a queue attached that has nothing ready. *)
Definition encoder_on_empty_queue : AudioEncoder :=
  {| _queue := Some {| ready := [] |}; d_ptr := new_private_data format0 |}.

(** A new encoder right after open_ctx took a frame at 44.1 kHz on
    [backend_ok], before the staging step. *)
Definition after_first_open : AudioEncoderPrivateData :=
  {| encoder := Some libfdk_aac;
     encoder_ctx := Some ctx_open_44k;
     format := format_44k;
     encode_frame := None;
     reassignment := true |}.

Definition trace_first_open : list Event :=
  [ Call_find_encoder_by_name "libfdk_aac" (Some libfdk_aac);
    Call_alloc_context3 true;
    Print_APP_Info core.Codec_encoder_init_success
                   "codec::AEPD::_init_encoder" INFO_LEVEL
                   (Some "Fraunhofer FDK AAC"%string);
    Call_open2 0 0 ].

(** ** The other capability helpers *)

(** The two other arrays of an AVCodec, as the pointer fields of that
    name: [sample_fmts] ends with AV_SAMPLE_FMT_NONE, [channel_layouts]
    with 0; [None] is the null pointer.  Sample formats are held by their
    enumerator values, since a codec may list enumerators this file does
    not name. *)
Record AVCodecArrays : Type := mkAVCodecArrays
  { sample_fmts : option (list Z);
    channel_layouts : option (list Z) }.

(** The loop of lines 66-70 over the enumerators at [p]; [None] when the
    loop runs past the stored array. *)
Fixpoint check_sample_fmt_loop (p : list Z) (sample_fmt : Z) : option bool :=
  match p with
  | [] => None
  | x :: p' =>
      if x =? sample_fmt_value AV_SAMPLE_FMT_NONE then Some false
      else if x =? sample_fmt then Some true
      else check_sample_fmt_loop p' sample_fmt
  end.

(** check_sample_fmt, lines 62-72.  The pointer is read without a test:
    [None] also stands for the read through a null [sample_fmts]. *)
Definition check_sample_fmt (codec : AVCodecArrays) (sample_fmt : Z) : option bool :=
  match sample_fmts codec with
  | None => None
  | Some p => check_sample_fmt_loop p sample_fmt
  end.

(** av_popcount64, which is what FFmpeg's
    av_get_channel_layout_nb_channels returns for a layout mask. *)
Definition popcount64 (mask : Z) : Z :=
  Z.of_nat (List.length (List.filter (fun i => Z.testbit mask (Z.of_nat i))
                                     (List.seq 0 64))).

Section ChannelLayout.

(** av_get_channel_layout_nb_channels, a function of libavutil. *)
Variable av_get_channel_layout_nb_channels : Z -> Z.

(** The loop of lines 109-117 with the running [best_ch_layout] and
    [best_nb_channels]. *)
Fixpoint select_channel_layout_loop (p : list Z)
         (best_ch_layout best_nb_channels : Z) : option Z :=
  match p with
  | [] => None
  | x :: p' =>
      if x =? 0 then Some best_ch_layout
      else
        let nb_channels := av_get_channel_layout_nb_channels x in
        if nb_channels >? best_nb_channels
        then select_channel_layout_loop p' x nb_channels
        else select_channel_layout_loop p' best_ch_layout best_nb_channels
  end.

(** select_channel_layout, lines 99-119. *)
Definition select_channel_layout (codec : AVCodecArrays) : option Z :=
  match channel_layouts codec with
  | None => Some AV_CH_LAYOUT_STEREO
  | Some p => select_channel_layout_loop p 0 0
  end.

End ChannelLayout.

(** ** Bookkeeping over a session's life *)

Definition is_alloc_context3_ok (e : Event) : bool :=
  match e with Call_alloc_context3 true => true | _ => false end.
Definition is_frame_alloc_ok (e : Event) : bool :=
  match e with Call_frame_alloc true => true | _ => false end.

(** How many contexts, and staging frames, the object holds: 0 or 1. *)
Definition ctx_held (d : AudioEncoderPrivateData) : nat :=
  match encoder_ctx d with Some _ => 1 | None => 0 end.
Definition frame_held (d : AudioEncoderPrivateData) : nat :=
  match encode_frame d with Some _ => 1 | None => 0 end.

(** The parameters lines 258-264 write. *)
Definition default_config (c : AVCodecContext) : Prop :=
  sample_fmt c = AV_SAMPLE_FMT_S16
  /\ bit_rate c = 64000
  /\ ctx_sample_rate c = 44100
  /\ channel_layout c = AV_CH_LAYOUT_STEREO
  /\ ctx_channels c = 2.

(** A context, when there is one, comes with a resolved codec and carries
    the default parameters. *)
Definition session_wf (d : AudioEncoderPrivateData) : Prop :=
  forall c, encoder_ctx d = Some c -> encoder d <> None /\ default_config c.

(** How often the format changes along a run of frames, the first frame
    counted when no format came before. *)
Fixpoint format_changes (prev : option core.Format)
         (ps : list core.FramePacket) : nat :=
  match ps with
  | [] => 0
  | p :: ps' =>
      (match prev with
       | Some f => if core.Format_eqb f (core.format p) then 0 else 1
       | None => 1
       end + format_changes (Some (core.format p)) ps')%nat
  end.

(** The distance the loop of select_sample_rate compares. *)
Definition distance_to_44100 (x : Z) : Z := Z.abs (44100 - x).

(** A codec that lists its capabilities, as libfdk_aac does. *)
Definition libfdk_aac_arrays : AVCodecArrays :=
  {| sample_fmts := Some [1; -1];
     channel_layouts := Some [4; 3; 1551; 63; 0] |}.

(** The first activation fails, the later ones succeed; and a backend
    that cannot allocate the staging frame. *)
Definition backend_first_open_fails : Backend :=
  {| avcodec_find_encoder_by_name := fun _ _ => Some libfdk_aac;
     avcodec_alloc_context3 := fun _ => true;
     avcodec_open2 := fun n => match n with O => -22 | S _ => 0 end;
     negotiated_frame_size := fun _ => 1024;
     av_frame_alloc := fun _ => true |}.

Definition backend_no_frame : Backend :=
  {| avcodec_find_encoder_by_name := fun _ _ => Some libfdk_aac;
     avcodec_alloc_context3 := fun _ => true;
     avcodec_open2 := fun _ => 0;
     negotiated_frame_size := fun _ => 1024;
     av_frame_alloc := fun _ => false |}.

(** A stretch of trace without any call that resolves, allocates or
    activates a codec, and without a warning. *)
Definition no_session_calls (fl : list Event) : Prop :=
  calls is_find fl = 0%nat
  /\ calls is_alloc_context3 fl = 0%nat
  /\ calls is_alloc_context3_ok fl = 0%nat
  /\ calls is_open2 fl = 0%nat
  /\ calls is_open2_success fl = 0%nat
  /\ calls is_warning fl = 0%nat.

(** A codec whose supported-rate array holds the terminator and nothing
    else. *)
Definition codec_without_rates : AVCodec :=
  {| id := 86018; long_name := "Fraunhofer FDK AAC";
     supported_samplerates := Some [0] |}.
(** ** Basic facts *)

Lemma Format_eqb_eq (a b : core.Format) :
  core.Format_eqb a b = true <-> a = b.
Proof.
  unfold core.Format_eqb. destruct a, b; simpl.
  rewrite !andb_true_iff, !Z.eqb_eq. split.
  - intros [[[-> ->] ->] ->]. reflexivity.
  - intros E. injection E as -> -> -> ->. auto.
Qed.

Lemma Format_eqb_refl (a : core.Format) : core.Format_eqb a a = true.
Proof. apply Format_eqb_eq. reflexivity. Qed.

Lemma Format_eqb_neq (a b : core.Format) :
  a <> b -> core.Format_eqb a b = false.
Proof.
  intros N. destruct (core.Format_eqb a b) eqn:E; [|reflexivity].
  apply Format_eqb_eq in E. contradiction.
Qed.

Lemma calls_app (p : Event -> bool) (a b : list Event) :
  calls p (a ++ b) = (calls p a + calls p b)%nat.
Proof. unfold calls. rewrite filter_app, length_app. reflexivity. Qed.

Lemma first_frame_reaches_there :
  encode backend_ok (Some frame_44k) (new_private_data format0) []
  = Done EncodingStep after_first_frame trace_first_frame.
Proof. reflexivity. Qed.

(** Unfolds the methods down to matches on the object's fields and on the
    backend's answers. *)
Ltac unfold_methods :=
  unfold encode, encode_nullptr, encode_staging, open_ctx, open2,
    _init_encoder, _set_encoder_param, close_ctx, free_context,
    alloc_encode_frame, bind, ret, get, modify, emit, count_calls,
    null_deref in *;
  simpl in *.

Section Facts.

Variable B : Backend.

(** The staging step: what alloc_encode_frame returns and leaves behind
    when the context is there. *)
Lemma alloc_encode_frame_spec (d : AudioEncoderPrivateData) (tr : list Event)
      (c : AVCodecContext) :
  encoder_ctx d = Some c ->
  exists b d' fl,
    alloc_encode_frame B d tr = Done b d' (tr ++ fl)
    /\ (fl = [] \/ exists r, fl = [Call_frame_alloc r])
    /\ encoder d' = encoder d
    /\ encoder_ctx d' = Some c
    /\ format d' = format d
    /\ (b = true <-> encode_frame d' <> None /\ reassignment d = true)
    /\ (b = true ->
        reassignment d' = false
        /\ encode_frame d'
           = Some {| nb_samples := frame_size c;
                     frame_format := sample_fmt_value (sample_fmt c);
                     frame_channel_layout := channel_layout c |})
    /\ (b = false -> reassignment d' = reassignment d).
Proof.
  intros Hc. destruct d as [e x f fr ra]. simpl in Hc. subst x.
  unfold_methods.
  destruct fr as [fr|]; simpl.
  - destruct ra; simpl.
    + exists true. eexists. exists []. rewrite app_nil_r. simpl.
      repeat split; auto; try discriminate.
    + exists false. eexists. exists []. rewrite app_nil_r. simpl.
      repeat split; auto; try discriminate. intros [_ H]. discriminate.
  - destruct (av_frame_alloc B (calls is_frame_alloc tr)) eqn:Ha; simpl.
    + destruct ra; simpl.
      * exists true. eexists. eexists. split; [reflexivity|]. simpl.
        repeat split; eauto; try discriminate.
      * exists false. eexists. eexists. split; [reflexivity|]. simpl.
        repeat split; eauto; try discriminate. intros [_ H]. discriminate.
    + exists false. eexists. eexists. split; [reflexivity|]. simpl.
      repeat split; eauto; try discriminate. intros [H _]. congruence.
Qed.

End Facts.

Section Session.

Variable B : Backend.

(** alloc_encode_frame does read through the context: with the flag set,
    a staging frame and no context it faults. *)
Lemma alloc_encode_frame_needs_context (d : AudioEncoderPrivateData)
      (tr : list Event) (fr : AVFrame) :
  encoder_ctx d = None -> encode_frame d = Some fr -> reassignment d = true ->
  alloc_encode_frame B d tr = NullDeref.
Proof.
  destruct d as [e x f y ra]; simpl; intros -> -> ->. reflexivity.
Qed.

Lemma encode_staging_spec (d : AudioEncoderPrivateData) (tr : list Event)
      (c : AVCodecContext) :
  encoder_ctx d = Some c ->
  exists o d' fl,
    encode_staging B d tr = Done o d' (tr ++ fl)
    /\ (fl = [] \/ exists r, fl = [Call_frame_alloc r])
    /\ encoder d' = encoder d
    /\ encoder_ctx d' = Some c
    /\ format d' = format d
    /\ (o = EncodingStep \/ o = StagingRefused)
    /\ (o = EncodingStep <-> encode_frame d' <> None /\ reassignment d = true)
    /\ (o = EncodingStep ->
        reassignment d' = false /\ encode_frame d' = Some (synced_frame c)).
Proof.
  intros Hc.
  destruct (alloc_encode_frame_spec B d tr c Hc)
    as (b & d' & fl & E & Hfl & He & Hx & Hf & Hb & Ht & _).
  unfold encode_staging, bind. rewrite E.
  destruct b; unfold ret.
  - exists EncodingStep, d', fl. repeat split; auto; try apply Ht; auto;
      try (apply Hb; reflexivity).
  - exists StagingRefused, d', fl. repeat split; auto; try discriminate.
    intros H. apply Hb in H. discriminate.
Qed.

(** close_ctx: the flush call of line 161 does nothing but, at most,
    allocate the staging frame; then the context is freed. *)
Lemma close_ctx_spec (d : AudioEncoderPrivateData) (tr : list Event) :
  exists d' fl,
    close_ctx B d tr = Done tt d' (tr ++ fl)
    /\ encoder_ctx d' = None
    /\ encoder d' = encoder d
    /\ format d' = format d
    /\ match encoder_ctx d with
       | None => fl = [] /\ d' = d
       | Some c =>
           exists st, (st = [] \/ exists r, st = [Call_frame_alloc r])
                      /\ fl = st ++ [Call_free_context (handle c)]
       end.
Proof.
  destruct (encoder_ctx d) as [c|] eqn:Hc.
  - destruct (encode_staging_spec d tr c Hc)
      as (o & d1 & st & E & Hst & He & Hx & Hf & _).
    unfold close_ctx, encode_nullptr, bind, get. cbv beta.
    rewrite !Hc. cbv beta iota. rewrite E.
    unfold free_context, bind, get, emit, modify. rewrite Hx.
    eexists. exists (st ++ [Call_free_context (handle c)]).
    rewrite app_assoc. split; [reflexivity|]. simpl.
    repeat split; auto. exists st. auto.
  - exists d, []. unfold close_ctx, bind, get, ret. rewrite Hc, app_nil_r.
    repeat split; auto. 
Qed.

(** open_ctx on a closed session, case by case on what the backend
    answers. *)
Lemma open_ctx_closed (p : core.FramePacket) (d : AudioEncoderPrivateData)
      (tr : list Event) :
  encoder_ctx d = None ->
  open_ctx B p d tr =
    let name := "libfdk_aac"%string in
    let found := avcodec_find_encoder_by_name B (calls is_find tr) name in
    let h := calls is_alloc_context3 tr in
    let r := avcodec_open2 B (calls is_open2 tr) in
    match found with
    | None =>
        Done false (set_encoder None d)
             (tr ++ [Call_find_encoder_by_name name None;
                     Print_APP_Info core.Codec_encoder_not_found
                       "codec::AEPD::_init_encoder" WARNING_LEVEL (Some name)])
    | Some codec =>
        if avcodec_alloc_context3 B h then
          if r <? 0 then
            Done false
                 (set_encoder_ctx (Some (configured_context h))
                                  (set_encoder found d))
                 (tr ++ [Call_find_encoder_by_name name found;
                         Call_alloc_context3 true;
                         Print_APP_Info core.Codec_encoder_init_success
                           "codec::AEPD::_init_encoder" INFO_LEVEL
                           (Some (long_name codec));
                         Call_open2 h r;
                         Print_APP_Info core.Codec_codec_open_failed
                           "codec::AEPD::open_ctx" WARNING_LEVEL None;
                         Print_FFMPEG_Info r "codec::AEPD::open_ctx"
                                           WARNING_LEVEL])
          else
            Done true
                 {| encoder := found;
                    encoder_ctx :=
                      Some (opened_context h
                              (negotiated_frame_size B (calls is_open2 tr)));
                    format := core.format p;
                    encode_frame := encode_frame d;
                    reassignment := true |}
                 (tr ++ [Call_find_encoder_by_name name found;
                         Call_alloc_context3 true;
                         Print_APP_Info core.Codec_encoder_init_success
                           "codec::AEPD::_init_encoder" INFO_LEVEL
                           (Some (long_name codec));
                         Call_open2 h r])
        else
          Done false (set_encoder found d)
               (tr ++ [Call_find_encoder_by_name name found;
                       Call_alloc_context3 false;
                       Print_APP_Info core.Codec_codec_context_alloc_failed
                         "codec::AEPD::_init_encoder" WARNING_LEVEL None])
    end.
Proof.
  destruct d as [e x f fr ra]; simpl; intros ->.
  unfold_methods.
  destruct (avcodec_find_encoder_by_name B (calls is_find tr) "libfdk_aac")
    as [codec|]; simpl.
  - rewrite !calls_app; simpl. rewrite !Nat.add_0_r.
    destruct (avcodec_alloc_context3 B (calls is_alloc_context3 tr)); simpl.
    + rewrite !calls_app; simpl. rewrite !Nat.add_0_r.
      destruct (avcodec_open2 B (calls is_open2 tr) <? 0) eqn:Er; simpl;
        rewrite ?Er; simpl; repeat rewrite <- app_assoc; reflexivity.
    + repeat rewrite <- app_assoc; reflexivity.
  - repeat rewrite <- app_assoc; reflexivity.
Qed.

(** open_ctx when the test of line 128 fails: close, then open from the
    closed session. *)
Lemma open_ctx_reopen (p : core.FramePacket) (d : AudioEncoderPrivateData)
      (tr : list Event) :
  session_matches d (core.format p) = false ->
  open_ctx B p d tr = (close_ctx B ;;; open_ctx B p) d tr.
Proof.
  intros Hm.
  destruct (close_ctx_spec d tr) as (d1 & fl & E & Hx & _).
  unfold bind at 1. rewrite E.
  assert (E1 : session_matches d1 (core.format p) = false)
    by (unfold session_matches; rewrite Hx; reflexivity).
  assert (E2 : close_ctx B d1 (tr ++ fl) = Done tt d1 (tr ++ fl))
    by (unfold close_ctx, bind, get, ret; rewrite Hx; reflexivity).
  unfold open_ctx at 2. unfold bind at 1, get at 1.
  fold (session_matches d1 (core.format p)). rewrite E1.
  unfold bind at 1. rewrite E2.
  unfold open_ctx, bind at 1, get at 1.
  fold (session_matches d (core.format p)). rewrite Hm.
  unfold bind at 1. rewrite E. reflexivity.
Qed.

(** open_ctx when the test of line 128 holds: nothing happens. *)
Lemma open_ctx_same_format (p : core.FramePacket) (d : AudioEncoderPrivateData)
      (tr : list Event) :
  session_matches d (core.format p) = true ->
  open_ctx B p d tr = Done true d tr.
Proof.
  intros Hm. unfold open_ctx, bind, get.
  fold (session_matches d (core.format p)). rewrite Hm. reflexivity.
Qed.

End Session.

(** The case analysis every fact about open_ctx goes through: the test of
    line 128, then what close_ctx leaves, then the backend's answers. *)
Ltac open_ctx_cases B p d tr :=
  let Hm := fresh "Hm" in
  destruct (session_matches d (core.format p)) eqn:Hm;
  [ rewrite (open_ctx_same_format B p d tr Hm) in *
  | let d1 := fresh "d1" in
    let fl := fresh "fl" in
    let E := fresh "Eclose" in
    let Hx := fresh "Hx" in
    let He := fresh "He" in
    let Hf := fresh "Hf" in
    let Hfl := fresh "Hfl" in
    rewrite (open_ctx_reopen B p d tr Hm) in *;
    destruct (close_ctx_spec B d tr) as (d1 & fl & E & Hx & He & Hf & Hfl);
    unfold bind in *; rewrite E in *;
    rewrite (open_ctx_closed B p d1 (tr ++ fl) Hx) in *; cbv zeta in *;
    destruct (avcodec_find_encoder_by_name B (calls is_find (tr ++ fl)) "libfdk_aac")
      as [codec|] eqn:Efind;
    [ destruct (avcodec_alloc_context3 B (calls is_alloc_context3 (tr ++ fl)))
        eqn:Ealloc;
      [ destruct (avcodec_open2 B (calls is_open2 (tr ++ fl)) <? 0) eqn:Eopen | ]
    | ] ].

Section Driver.

Variable B : Backend.

(** open_ctx always returns, and when it returns true a context is
    there and the recorded format is the packet's. *)
Lemma open_ctx_returns (p : core.FramePacket) (d : AudioEncoderPrivateData)
      (tr : list Event) :
  exists ok d' tr',
    open_ctx B p d tr = Done ok d' tr'
    /\ (ok = true ->
        (exists c, encoder_ctx d' = Some c) /\ format d' = core.format p).
Proof.
  open_ctx_cases B p d tr.
  - exists true, d, tr. split; [reflexivity|]. intros _.
    unfold session_matches in Hm. apply andb_true_iff in Hm as [H1 H2].
    apply Format_eqb_eq in H2. destruct (encoder_ctx d); [eauto|discriminate].
  - do 3 eexists. split; [reflexivity|]. discriminate.
  - do 3 eexists. split; [reflexivity|]. intros _. simpl. eauto.
  - do 3 eexists. split; [reflexivity|]. discriminate.
  - do 3 eexists. split; [reflexivity|]. discriminate.
Qed.

Lemma encode_returns (p : option core.FramePacket)
      (d : AudioEncoderPrivateData) (tr : list Event) :
  exists o d' tr', encode B p d tr = Done o d' tr'.
Proof.
  destruct p as [p|]; simpl.
  - destruct (open_ctx_returns p d tr) as (ok & d1 & tr1 & E & H).
    unfold bind. rewrite E. destruct ok; simpl.
    + destruct H as [[c Hc] _]; [reflexivity|].
      destruct (encode_staging_spec B d1 tr1 c Hc) as (o & d' & fl & E' & _).
      eauto.
    + unfold ret. eauto.
  - unfold encode_nullptr, bind, get. destruct (encoder_ctx d) as [c|] eqn:Hc.
    + destruct (encode_staging_spec B d tr c Hc) as (o & d' & fl & E' & _).
      eauto.
    + unfold ret. eauto.
Qed.

(** C5.  encode(nullptr) on an encoder whose context is null (no session
    open) returns at once: the object is untouched and the trace gains
    nothing, no diagnostic in particular, and there is no fault. *)
Theorem encode_null_without_session_is_noop
        (d : AudioEncoderPrivateData) (tr : list Event) :
  encoder_ctx d = None ->
  encode B None d tr = Done NothingToFlush d tr.
Proof.
  intros Hc. simpl. unfold encode_nullptr, bind, get. rewrite Hc. reflexivity.
Qed.

(** C10.  [encode] reaches the staging step, whose first action is the
    call to alloc_encode_frame, only with a context: a null packet with
    a null context returns before it, a failed open_ctx returns before
    it, a successful open_ctx leaves a context, and the inner
    encode(nullptr) of close_ctx is made only when a context is there.
    So no call of [encode] faults on a null context. *)
Theorem encode_stages_only_with_context
        (p : option core.FramePacket) (d : AudioEncoderPrivateData)
        (tr : list Event) :
  match p with
  | None =>
      (encoder_ctx d = None /\ encode B p d tr = Done NothingToFlush d tr)
      \/ (encoder_ctx d <> None /\ encode B p d tr = encode_staging B d tr)
  | Some pk =>
      exists ok d1 tr1,
        open_ctx B pk d tr = Done ok d1 tr1
        /\ ((ok = false /\ encode B p d tr = Done OpenFailed d1 tr1)
            \/ (ok = true /\ encoder_ctx d1 <> None
                /\ encode B p d tr = encode_staging B d1 tr1))
  end
  /\ ((encoder_ctx d = None /\ close_ctx B d tr = Done tt d tr)
      \/ (encoder_ctx d <> None
          /\ close_ctx B d tr = (encode_staging B ;;; free_context) d tr))
  /\ (forall d1 tr1, encoder_ctx d1 <> None ->
                     exists b d2 tr2, alloc_encode_frame B d1 tr1 = Done b d2 tr2)
  /\ exists o d' tr', encode B p d tr = Done o d' tr'.
Proof.
  split; [|split; [|split]].
  - destruct p as [pk|].
    + destruct (open_ctx_returns pk d tr) as (ok & d1 & tr1 & E & H).
      exists ok, d1, tr1. split; [exact E|].
      simpl. unfold bind. rewrite E. destruct ok; simpl.
      * right. destruct H as [[c Hc] _]; [reflexivity|].
        repeat split; auto. congruence.
      * left. auto.
    + simpl. unfold encode_nullptr, bind, get.
      destruct (encoder_ctx d) eqn:Hc.
      * right. split; [discriminate|reflexivity].
      * left. auto.
  - unfold close_ctx, encode_nullptr, bind, get. cbv beta.
    destruct (encoder_ctx d) eqn:Hc; cbv beta iota.
    + right. split; [discriminate|]. rewrite Hc. reflexivity.
    + left. auto.
  - intros d1 tr1 Hc. destruct (encoder_ctx d1) as [c|] eqn:Hc1; [|congruence].
    destruct (alloc_encode_frame_spec B d1 tr1 c Hc1) as (b & d2 & fl & E & _).
    eauto.
  - apply encode_returns.
Qed.

End Driver.

(** C5 at the freshly constructed encoder. *)
Lemma encode_null_without_session_is_noop_witness :
  encode backend_ok None (new_private_data format0) []
  = Done NothingToFlush (new_private_data format0) [].
Proof.
  apply (encode_null_without_session_is_noop backend_ok
           (new_private_data format0) []).
  reflexivity.
Defined.

Section OpenCtx.

Variable B : Backend.

(** Every failing open_ctx ends on a warning; it leaves no context
    when resolution or allocation failed, and the context it allocated,
    configured and never opened, under the old recorded format, when
    avcodec_open2 failed. *)
Lemma open_ctx_failure_cases (p : core.FramePacket)
      (d d' : AudioEncoderPrivateData) (tr tr' : list Event) :
  open_ctx B p d tr = Done false d' tr' ->
  (exists pre w, tr' = pre ++ [w] /\ is_warning w = true)
  /\ (encoder_ctx d' = None
      \/ exists h, encoder_ctx d' = Some (configured_context h)
                   /\ format d' = format d
                   /\ exists pre r, r < 0
                        /\ tr' = pre ++
                             [Call_open2 h r;
                              Print_APP_Info core.Codec_codec_open_failed
                                "codec::AEPD::open_ctx" WARNING_LEVEL None;
                              Print_FFMPEG_Info r "codec::AEPD::open_ctx"
                                                WARNING_LEVEL]).
Proof.
  open_ctx_cases B p d tr; intros E; inversion E; subst; clear E.
  - split.
    + eexists (tr ++ fl ++ [_; _; _; _; _]), _.
      split; [rewrite <- !app_assoc; simpl; reflexivity|reflexivity].
    + right. eexists. simpl. split; [reflexivity|]. split; [exact Hf|].
      eexists (tr ++ fl ++ [_; _; _]), _. split; [apply Z.ltb_lt; exact Eopen|].
      rewrite <- !app_assoc. simpl. reflexivity.
  - split.
    + eexists (tr ++ fl ++ [_; _]), _.
      split; [rewrite <- !app_assoc; simpl; reflexivity|reflexivity].
    + left. simpl. exact Hx.
  - split.
    + eexists (tr ++ fl ++ [_]), _.
      split; [rewrite <- !app_assoc; simpl; reflexivity|reflexivity].
    + left. simpl. exact Hx.
Qed.

(** The staging step refuses every call made with the flag clear, also
    when the staging frame is there. *)
Lemma staging_refused_when_flag_clear (d : AudioEncoderPrivateData)
      (tr : list Event) (fr : AVFrame) :
  encode_frame d = Some fr -> reassignment d = false ->
  alloc_encode_frame B d tr = Done false d tr
  /\ encode_staging B d tr = Done StagingRefused d tr.
Proof.
  destruct d as [e x f y ra]; simpl; intros -> ->.
  unfold encode_staging, alloc_encode_frame, bind, get, ret; simpl. auto.
Qed.

(** C6, as the code has it.  When open_ctx returns true the recorded
    format is the packet's.  If the test of line 128 held before the
    call (a context was held and the recorded format was the packet's)
    the object and the trace are as before the call, the flag included;
    if it failed (no context, or another recorded format) a session was
    opened by the call and the flag is set. *)
Theorem open_ctx_success_postcondition (p : core.FramePacket)
        (d d' : AudioEncoderPrivateData) (tr tr' : list Event) :
  open_ctx B p d tr = Done true d' tr' ->
  format d' = core.format p
  /\ (session_matches d (core.format p) = true -> d' = d /\ tr' = tr)
  /\ (session_matches d (core.format p) = false ->
      reassignment d' = true
      /\ exists c, encoder_ctx d' = Some c /\ opened c = true).
Proof.
  open_ctx_cases B p d tr; intros E; inversion E; subst; clear E.
  - split; [|split].
    + unfold session_matches in Hm. apply andb_true_iff in Hm as [_ H].
      apply Format_eqb_eq in H. exact H.
    + auto.
    + discriminate.
  - simpl. split; [reflexivity|]. split; [discriminate|].
    intros _. split; [reflexivity|]. eexists. split; reflexivity.
Qed.

End OpenCtx.

(** C6 on the first frame of a stream. *)
Lemma open_ctx_success_postcondition_witness :
  open_ctx backend_ok frame_44k (new_private_data format0) []
  = Done true after_first_open trace_first_open
  /\ format after_first_open = core.format frame_44k
  /\ reassignment after_first_open = true
  /\ exists c, encoder_ctx after_first_open = Some c /\ opened c = true.
Proof.
  assert (E : open_ctx backend_ok frame_44k (new_private_data format0) []
              = Done true after_first_open trace_first_open) by reflexivity.
  destruct (open_ctx_success_postcondition backend_ok frame_44k
              (new_private_data format0) after_first_open [] trace_first_open E)
    as (H1 & _ & H3).
  split; [exact E|]. split; [exact H1|]. apply H3. reflexivity.
Defined.

(** C6 as stated fails: the encoder that has taken one frame (see
    [first_frame_reaches_there]) is handed a second frame of the same
    format; open_ctx returns true and the flag is not set. *)
Lemma open_ctx_success_flag_not_set :
  open_ctx backend_ok frame_44k after_first_frame trace_first_frame
  = Done true after_first_frame trace_first_frame
  /\ format after_first_frame = core.format frame_44k
  /\ reassignment after_first_frame = false.
Proof. repeat split. Qed.

(** C1: the activation failure path.  On a fresh encoder, and on an
    encoder with an open session, a failing avcodec_open2 makes open_ctx
    return false after its two warnings, and the context allocated for the
    attempt stays in [encoder_ctx], never opened, next to the format
    recorded before.  A later frame in that recorded format then passes
    the test of line 128, and open_ctx returns true without opening
    anything. *)
Theorem open_ctx_activation_failure_keeps_context :
  open_ctx backend_open_fails frame_44k (new_private_data format0) []
  = Done false
         {| encoder := Some libfdk_aac;
            encoder_ctx := Some (configured_context 0);
            format := format0;
            encode_frame := None;
            reassignment := false |}
         [ Call_find_encoder_by_name "libfdk_aac" (Some libfdk_aac);
           Call_alloc_context3 true;
           Print_APP_Info core.Codec_encoder_init_success
                          "codec::AEPD::_init_encoder" INFO_LEVEL
                          (Some "Fraunhofer FDK AAC"%string);
           Call_open2 0 (-22);
           Print_APP_Info core.Codec_codec_open_failed
                          "codec::AEPD::open_ctx" WARNING_LEVEL None;
           Print_FFMPEG_Info (-22) "codec::AEPD::open_ctx" WARNING_LEVEL ]
  /\ open_ctx backend_second_open_fails frame_48k
              after_first_frame trace_first_frame
     = Done false after_failed_reopen trace_failed_reopen
  /\ open_ctx backend_second_open_fails frame_44k
              after_failed_reopen trace_failed_reopen
     = Done true after_failed_reopen trace_failed_reopen
  /\ (exists c, encoder_ctx after_failed_reopen = Some c /\ opened c = false).
Proof.
  repeat split. exists (configured_context 1). split; reflexivity.
Qed.

(** C3: the second frame of a stream.  The first frame opened the session
    and went through staging, which cleared the flag.  On the second
    frame, same format, the staging frame is allocated and in step with
    the session, and alloc_encode_frame returns false all the same:
    [encode] returns at line 186 and the encoding step is not reached. *)
Theorem encode_second_frame_refused_at_staging :
  encode backend_ok (Some frame_44k) (new_private_data format0) []
  = Done EncodingStep after_first_frame trace_first_frame
  /\ encode_frame after_first_frame
     = Some (synced_frame ctx_open_44k)
  /\ alloc_encode_frame backend_ok after_first_frame trace_first_frame
     = Done false after_first_frame trace_first_frame
  /\ encode backend_ok (Some frame_44k) after_first_frame trace_first_frame
     = Done StagingRefused after_first_frame trace_first_frame.
Proof. repeat split. Qed.

(** ** Counting over runs *)

Lemma close_trace_calls (x : option AVCodecContext) (fl : list Event) :
  match x with
  | None => fl = []
  | Some c =>
      exists st, (st = [] \/ exists r, st = [Call_frame_alloc r])
                 /\ fl = st ++ [Call_free_context (handle c)]
  end ->
  calls is_find fl = 0%nat
  /\ calls is_alloc_context3 fl = 0%nat
  /\ calls is_open2 fl = 0%nat
  /\ calls is_open2_success fl = 0%nat
  /\ (calls is_free_context fl <= 1)%nat
  /\ last_resolved fl = None
  /\ forall tr, last_resolved (tr ++ fl) = last_resolved tr.
Proof.
  destruct x as [c|].
  - intros (st & [-> | [r ->]] & ->); unfold last_resolved;
      repeat split; auto; intros; rewrite fold_left_app; reflexivity.
  - intros ->. unfold last_resolved. repeat split; auto.
    intros. rewrite app_nil_r. reflexivity.
Qed.

Lemma staging_trace_calls (fl : list Event) :
  fl = [] \/ (exists r, fl = [Call_frame_alloc r]) ->
  calls is_find fl = 0%nat
  /\ calls is_open2 fl = 0%nat
  /\ calls is_open2_success fl = 0%nat
  /\ calls is_free_context fl = 0%nat
  /\ forall tr, last_resolved (tr ++ fl) = last_resolved tr.
Proof.
  intros [-> | [r ->]]; unfold last_resolved; repeat split; auto; intros;
    rewrite fold_left_app; reflexivity.
Qed.

Lemma last_resolved_ever (tr : list Event) (c : AVCodec) :
  last_resolved tr = Some c -> ever_resolved tr = true.
Proof.
  unfold last_resolved, ever_resolved.
  assert (G : forall acc,
             fold_left (fun acc e =>
                          match e with
                          | Call_find_encoder_by_name _ r => r
                          | _ => acc
                          end) tr acc = Some c ->
             acc = Some c
             \/ existsb (fun e => match e with
                                  | Call_find_encoder_by_name _ (Some _) => true
                                  | _ => false
                                  end) tr = true).
  { induction tr as [|e tr IH]; intros acc H; simpl in *.
    - left. exact H.
    - destruct e as [| |n [f|]| | | |]; simpl;
        try (destruct (IH _ H) as [H1|H1]; [left; exact H1| right; exact H1]).
      + right. reflexivity.
      + destruct (IH _ H) as [H1|H1]; [discriminate| right; exact H1]. }
  intros H. destruct (G None H) as [H1|H1]; [discriminate|exact H1].
Qed.

Section Runs.

Variable B : Backend.

(** One open_ctx, counted. *)
Lemma open_ctx_step (p : core.FramePacket) (d : AudioEncoderPrivateData)
      (tr : list Event) :
  exists ok d' fl,
    open_ctx B p d tr = Done ok d' (tr ++ fl)
    /\ (session_matches d (core.format p) = true ->
        ok = true /\ d' = d /\ fl = [])
    /\ (session_matches d (core.format p) = false ->
        calls is_find fl = 1%nat
        /\ (calls is_free_context fl <= 1)%nat
        /\ (ok = true ->
            calls is_open2_success fl = 1%nat
            /\ session_matches d' (core.format p) = true)
        /\ (ok = false -> calls is_open2_success fl = 0%nat)
        /\ (avcodec_find_encoder_by_name B (calls is_find tr) "libfdk_aac" <> None ->
            avcodec_alloc_context3 B (calls is_alloc_context3 tr) = true ->
            0 <= avcodec_open2 B (calls is_open2 tr) ->
            ok = true)
        /\ encoder d' = last_resolved (tr ++ fl)).
Proof.
  open_ctx_cases B p d tr;
    [ exists true, d, []; rewrite app_nil_r; split; [reflexivity|];
      split; [auto|discriminate]
    | .. ];
    (destruct (close_trace_calls (encoder_ctx d) fl)
      as (C1 & C2 & C3 & C4 & C5 & _ & C7);
     [ destruct (encoder_ctx d); [exact Hfl|apply Hfl] | ]);
    assert (I1 : calls is_find (tr ++ fl) = calls is_find tr)
      by (rewrite calls_app, C1; lia);
    assert (I2 : calls is_alloc_context3 (tr ++ fl) = calls is_alloc_context3 tr)
      by (rewrite calls_app, C2; lia);
    assert (I3 : calls is_open2 (tr ++ fl) = calls is_open2 tr)
      by (rewrite calls_app, C3; lia);
    rewrite ?I1, ?I2, ?I3 in *;
    set (i := calls is_find tr) in *;
    set (h := calls is_alloc_context3 tr) in *;
    set (n := calls is_open2 tr) in *;
    rewrite <- app_assoc; do 3 eexists; (split; [reflexivity|]);
    (split; [discriminate|]); intros _;
    rewrite !calls_app, C1, C4; unfold last_resolved;
    rewrite ?fold_left_app; unfold calls in *; simpl.
  - (* avcodec_open2 failed *)
    apply Z.ltb_lt in Eopen.
    assert (El : (0 <=? avcodec_open2 B n) = false)
      by (apply Z.leb_gt; exact Eopen).
    rewrite El. simpl.
    repeat split; try discriminate; auto; try lia.
  - (* everything succeeded *)
    apply Z.ltb_ge in Eopen.
    assert (El : (0 <=? avcodec_open2 B n) = true)
      by (apply Z.leb_le; exact Eopen).
    rewrite El. simpl.
    repeat split; try discriminate; auto; try lia.
    unfold session_matches. simpl. apply Format_eqb_refl.
  - (* avcodec_alloc_context3 failed *)
    repeat split; try discriminate; auto; try lia; try congruence.
  - (* avcodec_find_encoder_by_name failed *)
    repeat split; try discriminate; auto; try lia; try congruence.
Qed.

(** One frame through [encode], counted. *)
Lemma encode_frame_step (p : core.FramePacket) (d : AudioEncoderPrivateData)
      (tr : list Event) :
  exists o d' fl,
    encode B (Some p) d tr = Done o d' (tr ++ fl)
    /\ (session_matches d (core.format p) = true ->
        session_matches d' (core.format p) = true
        /\ calls is_find fl = 0%nat
        /\ calls is_open2 fl = 0%nat
        /\ calls is_open2_success fl = 0%nat
        /\ calls is_free_context fl = 0%nat)
    /\ (session_matches d (core.format p) = false ->
        calls is_find fl = 1%nat
        /\ (calls is_free_context fl <= 1)%nat
        /\ (calls is_open2_success fl <= 1)%nat
        /\ (calls is_open2_success fl = 1%nat ->
            session_matches d' (core.format p) = true)
        /\ (avcodec_find_encoder_by_name B (calls is_find tr) "libfdk_aac" <> None ->
            avcodec_alloc_context3 B (calls is_alloc_context3 tr) = true ->
            0 <= avcodec_open2 B (calls is_open2 tr) ->
            calls is_open2_success fl = 1%nat))
    /\ (encoder d = last_resolved tr -> encoder d' = last_resolved (tr ++ fl)).
Proof.
  destruct (open_ctx_step p d tr) as (ok & d1 & fl1 & E & Hsame & Hdiff).
  simpl. unfold bind. rewrite E. destruct ok; simpl.
  - (* open_ctx returned true: on to the staging step *)
    assert (Hm1 : session_matches d1 (core.format p) = true).
    { destruct (session_matches d (core.format p)) eqn:Hm.
      - destruct Hsame as (_ & -> & _); auto.
      - destruct Hdiff as (_ & _ & H & _); auto. apply H; reflexivity. }
    destruct (encoder_ctx d1) as [c|] eqn:Hc;
      [|unfold session_matches in Hm1; rewrite Hc in Hm1; discriminate].
    destruct (encode_staging_spec B d1 (tr ++ fl1) c Hc)
      as (o & d' & fl2 & E' & Hfl2 & He & Hx & Hf & _).
    destruct (staging_trace_calls fl2 Hfl2) as (S1 & S2 & S3 & S4 & S5).
    exists o, d', (fl1 ++ fl2). rewrite app_assoc.
    split; [exact E'|].
    assert (Hm' : session_matches d' (core.format p) = true)
      by (unfold session_matches in *; rewrite Hx, Hf; rewrite Hc in Hm1; exact Hm1).
    rewrite !calls_app, S1, S2, S3, S4, !Nat.add_0_r.
    split; [|split].
    + intros Hm. destruct (Hsame Hm) as (_ & -> & ->). auto.
    + intros Hm. destruct (Hdiff Hm) as (D1 & D2 & D3 & _ & D5 & _).
      destruct (D3 eq_refl) as [D3a _]. repeat split; auto; lia.
    + intros Hinv. rewrite <- app_assoc, app_assoc, S5, He.
      destruct (session_matches d (core.format p)) eqn:Hm.
      * destruct (Hsame eq_refl) as (_ & -> & ->). rewrite app_nil_r. exact Hinv.
      * destruct (Hdiff eq_refl) as (_ & _ & _ & _ & _ & D6). exact D6.
  - (* open_ctx returned false *)
    exists OpenFailed, d1, fl1. split; [reflexivity|].
    split; [|split].
    + intros Hm. destruct (Hsame Hm) as (F & _). discriminate.
    + intros Hm. destruct (Hdiff Hm) as (D1 & D2 & _ & D4 & D5 & _).
      rewrite (D4 eq_refl). repeat split; auto; try lia; try discriminate.
      intros H1 H2 H3. specialize (D5 H1 H2 H3). discriminate.
    + intros Hinv. destruct (session_matches d (core.format p)) eqn:Hm.
      * destruct (Hsame eq_refl) as (F & _). discriminate.
      * destruct (Hdiff eq_refl) as (_ & _ & _ & _ & _ & D6). exact D6.
Qed.

(** The flush call, counted. *)
Lemma encode_null_step (d : AudioEncoderPrivateData) (tr : list Event) :
  exists o d' fl,
    encode B None d tr = Done o d' (tr ++ fl)
    /\ encoder d' = encoder d
    /\ last_resolved (tr ++ fl) = last_resolved tr.
Proof.
  simpl. unfold encode_nullptr, bind, get.
  destruct (encoder_ctx d) as [c|] eqn:Hc.
  - destruct (encode_staging_spec B d tr c Hc)
      as (o & d' & fl & E & Hfl & He & _).
    destruct (staging_trace_calls fl Hfl) as (_ & _ & _ & _ & S5).
    exists o, d', fl. auto.
  - exists NothingToFlush, d, []. rewrite app_nil_r. auto.
Qed.

Lemma drain_cons (p : core.FramePacket) (ps : list core.FramePacket)
      (d : AudioEncoderPrivateData) (tr : list Event) :
  drain B (p :: ps) d tr =
    match encode B (Some p) d tr with
    | Done _ d' tr' => drain B ps d' tr'
    | NullDeref => NullDeref
    end.
Proof. reflexivity. Qed.

(** A run of frames that all have the format the session is open with
    resolves, opens and frees nothing, and leaves the session so. *)
Lemma drain_same_format (f : core.Format) (ps : list core.FramePacket) :
  Forall (fun p => core.format p = f) ps ->
  forall d tr,
    session_matches d f = true ->
    exists d' fl,
      drain B ps d tr = Done tt d' (tr ++ fl)
      /\ session_matches d' f = true
      /\ calls is_find fl = 0%nat
      /\ calls is_open2 fl = 0%nat
      /\ calls is_open2_success fl = 0%nat
      /\ calls is_free_context fl = 0%nat.
Proof.
  induction 1 as [|p ps Hp _ IH]; intros d tr Hm.
  - exists d, []. rewrite app_nil_r. simpl. repeat split; auto.
  - destruct (encode_frame_step p d tr) as (o & d1 & fl1 & E & Hsame & _).
    rewrite Hp in Hsame. destruct (Hsame Hm) as (Hm1 & A1 & A2 & A3 & A4).
    destruct (IH d1 (tr ++ fl1) Hm1) as (d' & fl2 & E2 & Hm' & B1 & B2 & B3 & B4).
    exists d', (fl1 ++ fl2). rewrite drain_cons, E, E2, app_assoc.
    rewrite !calls_app. repeat split; auto; lia.
Qed.

(** In a run of frames of one format at most one activation succeeds. *)
Lemma drain_opens_at_most_once (f : core.Format) (ps : list core.FramePacket) :
  Forall (fun p => core.format p = f) ps ->
  forall d tr,
    exists d' fl,
      drain B ps d tr = Done tt d' (tr ++ fl)
      /\ (calls is_open2_success fl <= 1)%nat.
Proof.
  induction 1 as [|p ps Hp Hps IH]; intros d tr.
  - exists d, []. rewrite app_nil_r. simpl. split; [reflexivity|auto].
  - destruct (encode_frame_step p d tr) as (o & d1 & fl1 & E & Hsame & Hdiff & _).
    rewrite Hp in Hsame, Hdiff.
    rewrite drain_cons, E.
    destruct (session_matches d f) eqn:Hm.
    + destruct (Hsame eq_refl) as (Hm1 & _ & _ & A3 & _).
      destruct (drain_same_format f ps Hps d1 (tr ++ fl1) Hm1)
        as (d' & fl2 & E2 & _ & _ & _ & B3 & _).
      exists d', (fl1 ++ fl2). rewrite E2, app_assoc, calls_app. split; [auto|lia].
    + destruct (Hdiff eq_refl) as (_ & _ & D3 & D4 & _).
      destruct (Nat.eq_dec (calls is_open2_success fl1) 1) as [Eq|Ne].
      * destruct (drain_same_format f ps Hps d1 (tr ++ fl1) (D4 Eq))
          as (d' & fl2 & E2 & _ & _ & _ & B3 & _).
        exists d', (fl1 ++ fl2). rewrite E2, app_assoc, calls_app.
        split; [auto|lia].
      * destruct (IH d1 (tr ++ fl1)) as (d' & fl2 & E2 & Hle).
        exists d', (fl1 ++ fl2). rewrite E2, app_assoc, calls_app.
        split; [auto|lia].
Qed.

(** C2, as the code has it.  For frames that all have the format [f]:
    open_ctx on an encoder that holds a context recorded under [f] (the
    test of line 128, which is how the code knows an open session)
    returns true and leaves the object and the trace as they were
    (nothing is closed, resolved or opened); over the whole run at most
    one activation succeeds; if the test of line 128 holds for [f] at the
    start, the run resolves, opens and frees nothing; and if it fails at
    the start (no context, or another recorded format), the run is not
    empty and the first resolution, allocation and activation succeed,
    then the codec is resolved exactly once and opened exactly once in
    the whole run. *)
Theorem same_format_frames_open_once
        (f : core.Format) (ps : list core.FramePacket)
        (d : AudioEncoderPrivateData) (tr : list Event) :
  Forall (fun p => core.format p = f) ps ->
  (forall p, core.format p = f -> session_matches d f = true ->
             open_ctx B p d tr = Done true d tr)
  /\ exists d' fl,
      drain B ps d tr = Done tt d' (tr ++ fl)
      /\ (calls is_open2_success fl <= 1)%nat
      /\ (session_matches d f = true ->
          calls is_find fl = 0%nat
          /\ calls is_open2 fl = 0%nat
          /\ calls is_free_context fl = 0%nat)
      /\ (ps <> [] ->
          session_matches d f = false ->
          avcodec_find_encoder_by_name B (calls is_find tr) "libfdk_aac" <> None ->
          avcodec_alloc_context3 B (calls is_alloc_context3 tr) = true ->
          0 <= avcodec_open2 B (calls is_open2 tr) ->
          calls is_find fl = 1%nat /\ calls is_open2_success fl = 1%nat).
Proof.
  intros Hps. split.
  - intros p <- Hm. apply open_ctx_same_format. exact Hm.
  - destruct (drain_opens_at_most_once f ps Hps d tr) as (d' & fl & E & Hle).
    exists d', fl. split; [exact E|]. split; [exact Hle|]. split.
    + intros Hm.
      destruct (drain_same_format f ps Hps d tr Hm)
        as (d2 & fl2 & E2 & _ & A1 & A2 & _ & A4).
      rewrite E in E2. injection E2 as _ Efl. apply app_inv_head in Efl.
      subst fl2. auto.
    + intros Hne Hm H1 H2 H3.
      destruct Hps as [|p ps Hp Hps]; [congruence|].
      destruct (encode_frame_step p d tr) as (o & d1 & fl1 & E1 & _ & Hdiff & _).
      rewrite Hp in Hdiff.
      destruct (Hdiff Hm) as (D1 & _ & _ & D4 & D5).
      specialize (D5 H1 H2 H3).
      destruct (drain_same_format f ps Hps d1 (tr ++ fl1) (D4 D5))
        as (d2 & fl2 & E2 & _ & A1 & _ & A3 & _).
      rewrite drain_cons, E1, E2, <- app_assoc in E.
      injection E as _ Efl. apply app_inv_head in Efl. subst fl.
      rewrite !calls_app. lia.
Qed.

(** open_ctx when the test of line 128 fails, in two steps: close_ctx,
    which makes no call that resolves, allocates or activates, then
    open_ctx on the closed session it leaves. *)
Lemma open_ctx_reopen_from_closed (p : core.FramePacket)
      (d : AudioEncoderPrivateData) (tr : list Event) :
  session_matches d (core.format p) = false ->
  exists d1 fl,
    close_ctx B d tr = Done tt d1 (tr ++ fl)
    /\ open_ctx B p d tr = open_ctx B p d1 (tr ++ fl)
    /\ encoder_ctx d1 = None
    /\ encoder d1 = encoder d
    /\ format d1 = format d
    /\ match encoder_ctx d with
       | None => fl = [] /\ d1 = d
       | Some c =>
           exists st, (st = [] \/ exists r, st = [Call_frame_alloc r])
                      /\ fl = st ++ [Call_free_context (handle c)]
       end
    /\ calls is_find (tr ++ fl) = calls is_find tr
    /\ calls is_alloc_context3 (tr ++ fl) = calls is_alloc_context3 tr
    /\ calls is_open2 (tr ++ fl) = calls is_open2 tr.
Proof.
  intros Hm.
  destruct (close_ctx_spec B d tr) as (d1 & fl & E & Hx & He & Hf & Hfl).
  destruct (close_trace_calls (encoder_ctx d) fl) as (C1 & C2 & C3 & _).
  { destruct (encoder_ctx d); [exact Hfl|apply Hfl]. }
  exists d1, fl. split; [exact E|]. split.
  { rewrite (open_ctx_reopen B p d tr Hm). unfold bind. rewrite E. reflexivity. }
  rewrite !calls_app, C1, C2, C3, !Nat.add_0_r. auto 10.
Qed.

(** C4.  [encode] on a frame whose format differs from the one recorded
    for the context at hand.  The trace gains first what the flush call
    inside close_ctx does, which is nothing or the allocation of the
    staging frame (no packet is drained or handed on), then the release
    of the old context, then the resolution for the new one.  If the
    resolution, the allocation or the activation fails, [encode] returns
    at line 176 with no successful activation and the recorded format as
    it was.  If all three succeed, a fresh context is allocated,
    configured and opened, the packet's format is recorded, and only then
    comes the staging step. *)
Theorem encode_format_change_closes_then_reopens
        (p : core.FramePacket) (d : AudioEncoderPrivateData)
        (tr : list Event) (c : AVCodecContext) :
  encoder_ctx d = Some c ->
  format d <> core.format p ->
  let found := avcodec_find_encoder_by_name B (calls is_find tr) "libfdk_aac" in
  let h := calls is_alloc_context3 tr in
  let allocated := avcodec_alloc_context3 B h in
  let r := avcodec_open2 B (calls is_open2 tr) in
  exists o d' st rest,
    encode B (Some p) d tr
    = Done o d' (tr ++ st ++ Call_free_context (handle c)
                    :: Call_find_encoder_by_name "libfdk_aac" found :: rest)
    /\ (st = [] \/ exists b, st = [Call_frame_alloc b])
    /\ calls is_free_context rest = 0%nat
    /\ (found = None \/ allocated = false \/ r < 0 ->
        o = OpenFailed
        /\ calls is_open2_success rest = 0%nat
        /\ format d' = format d
        /\ (encoder_ctx d' = None
            \/ exists c', encoder_ctx d' = Some c' /\ opened c' = false))
    /\ (forall codec,
          found = Some codec -> allocated = true -> 0 <= r ->
          exists post,
            rest = [Call_alloc_context3 true;
                    Print_APP_Info core.Codec_encoder_init_success
                      "codec::AEPD::_init_encoder" INFO_LEVEL
                      (Some (long_name codec));
                    Call_open2 h r] ++ post
            /\ (post = [] \/ exists b, post = [Call_frame_alloc b])
            /\ encoder_ctx d'
               = Some (opened_context h
                         (negotiated_frame_size B (calls is_open2 tr)))
            /\ format d' = core.format p
            /\ (o = EncodingStep \/ o = StagingRefused)).
Proof.
  intros Hc Hne found h allocated r.
  assert (Hm : session_matches d (core.format p) = false).
  { unfold session_matches. rewrite Hc. simpl. apply Format_eqb_neq. exact Hne. }
  destruct (open_ctx_reopen_from_closed p d tr Hm)
    as (d1 & fl & _ & Eo & Hx & _ & Hf & Hfl & I1 & I2 & I3).
  rewrite Hc in Hfl. destruct Hfl as (st & Hst & ->).
  cbn [encode]. unfold bind at 1.
  rewrite Eo, (open_ctx_closed B p d1 _ Hx). cbv zeta.
  rewrite I1, I2, I3. fold found h allocated r.
  destruct found as [codec|] eqn:Efound.
  - destruct allocated eqn:Ealloc.
    + destruct (r <? 0) eqn:Eopen.
      * (* avcodec_open2 failed *)
        apply Z.ltb_lt in Eopen.
        assert (El : (0 <=? r) = false) by (apply Z.leb_gt; exact Eopen).
        cbn [negb]. unfold ret. rewrite <- !app_assoc. cbn [app].
        do 2 eexists. exists st. eexists. split; [reflexivity|].
        split; [exact Hst|]. split; [reflexivity|]. split.
        { intros _. split; [reflexivity|]. split.
          - unfold calls. simpl. rewrite El. reflexivity.
          - split; [exact Hf|]. right. eexists. split; reflexivity. }
        intros codec' _ _ Hr. lia.
      * (* reopened *)
        apply Z.ltb_ge in Eopen. cbn [negb].
        match goal with
        | |- context [encode_staging B ?d2 ?t2] =>
            destruct (encode_staging_spec B d2 t2 _ eq_refl)
              as (o & d' & post & E' & Hpost & _ & Hx' & Hf' & Ho & _)
        end.
        rewrite E'. exists o, d', st. eexists. split.
        { rewrite <- !app_assoc. cbn [app]. reflexivity. }
        split; [exact Hst|]. split.
        { destruct Hpost as [-> | [b ->]]; reflexivity. }
        split.
        { intros [F | [F | F]]; [discriminate|discriminate|lia]. }
        intros codec' Ec _ _. injection Ec as <-.
        exists post. split; [reflexivity|]. split; [exact Hpost|].
        split; [exact Hx'|]. split; [exact Hf'|exact Ho].
    + (* avcodec_alloc_context3 failed *)
      cbn [negb]. unfold ret. rewrite <- !app_assoc. cbn [app].
      do 2 eexists. exists st. eexists. split; [reflexivity|].
      split; [exact Hst|]. split; [reflexivity|]. split.
      { intros _. split; [reflexivity|]. split; [reflexivity|].
        split; [exact Hf|]. left. exact Hx. }
      intros codec' _ F. discriminate.
  - (* avcodec_find_encoder_by_name failed *)
    cbn [negb]. unfold ret. rewrite <- !app_assoc. cbn [app].
    do 2 eexists. exists st. eexists. split; [reflexivity|].
    split; [exact Hst|]. split; [reflexivity|]. split.
    { intros _. split; [reflexivity|]. split; [reflexivity|].
      split; [exact Hf|]. left. exact Hx. }
    intros codec' F. discriminate.
Qed.

(** Along any run of [encode] calls [encoder] holds what the latest
    resolution answered. *)
Lemma encode_all_keeps_resolved (ps : list (option core.FramePacket)) :
  forall d tr,
    encoder d = last_resolved tr ->
    exists d' tr',
      encode_all B ps d tr = Done tt d' tr'
      /\ encoder d' = last_resolved tr'.
Proof.
  induction ps as [|p ps IH]; intros d tr Hinv.
  - exists d, tr. split; [reflexivity|exact Hinv].
  - assert (H1 : exists o d1 tr1,
               encode B p d tr = Done o d1 tr1
               /\ encoder d1 = last_resolved tr1).
    { destruct p as [p|].
      - destruct (encode_frame_step p d tr) as (o & d1 & fl & E & _ & _ & K).
        exists o, d1, (tr ++ fl). auto.
      - destruct (encode_null_step d tr) as (o & d1 & fl & E & He & Hl).
        exists o, d1, (tr ++ fl). split; [exact E|]. congruence. }
    destruct H1 as (o & d1 & tr1 & E & Hinv1).
    destruct (IH d1 tr1 Hinv1) as (d' & tr' & E' & Hinv').
    exists d', tr'. split; [|exact Hinv'].
    cbn [encode_all]. unfold bind. rewrite E. exact E'.
Qed.

(** C7, as the code has it.  After any run of [encode] calls on a new
    encoder, get_encoder_id returns the identity of the codec that the
    latest codec resolution found, and zero if no resolution was made
    or the latest one failed.  When it is not zero some resolution has
    found a codec; whether an activation has succeeded does not
    matter. *)
Theorem get_encoder_id_follows_resolution
        (fmt0 : core.Format) (q : option Queue)
        (ps : list (option core.FramePacket)) :
  exists d' tr',
    encode_all B ps (new_private_data fmt0) [] = Done tt d' tr'
    /\ get_encoder_id {| _queue := q; d_ptr := d' |}
       = match last_resolved tr' with
         | None => 0
         | Some c => id c
         end
    /\ (get_encoder_id {| _queue := q; d_ptr := d' |} <> 0 ->
        ever_resolved tr' = true).
Proof.
  destruct (encode_all_keeps_resolved ps (new_private_data fmt0) [] eq_refl)
    as (d' & tr' & E & Hinv).
  exists d', tr'. split; [exact E|].
  unfold get_encoder_id. simpl. rewrite Hinv. split; [reflexivity|].
  destruct (last_resolved tr') as [c|] eqn:El.
  - intros _. apply (last_resolved_ever tr' c El).
  - intros H. contradiction H. reflexivity.
Qed.

End Runs.

(** C2 on two frames at 44.1 kHz put to a new encoder. *)
Lemma same_format_frames_open_once_witness :
  Forall (fun p => core.format p = format_44k) [frame_44k; frame_44k]
  /\ exists d' fl,
      drain backend_ok [frame_44k; frame_44k] (new_private_data format0) []
      = Done tt d' ([] ++ fl)
      /\ calls is_find fl = 1%nat /\ calls is_open2_success fl = 1%nat.
Proof.
  assert (H : Forall (fun p => core.format p = format_44k) [frame_44k; frame_44k])
    by (repeat constructor).
  split; [exact H|].
  destruct (same_format_frames_open_once backend_ok format_44k
              [frame_44k; frame_44k] (new_private_data format0) [] H)
    as (_ & d' & fl & E & _ & _ & K).
  exists d', fl. split; [exact E|].
  apply K; simpl; try reflexivity; discriminate.
Defined.

(** C2 as stated fails: the codec is not available, two frames of one
    format arrive, and the codec is resolved once per frame; no session is
    opened. *)
Lemma same_format_frames_resolved_twice :
  Forall (fun p => core.format p = format_44k) [frame_44k; frame_44k]
  /\ calls is_find
       (trace_of (drain backend_no_codec [frame_44k; frame_44k]
                        (new_private_data format0) [])) = 2%nat
  /\ ever_opened
       (trace_of (drain backend_no_codec [frame_44k; frame_44k]
                        (new_private_data format0) [])) = false.
Proof. split; [repeat constructor|split; reflexivity]. Qed.

(** C4 on the encoder that took a frame at 44.1 kHz and is handed one at
    48 kHz, every call succeeding: the old context 0 is freed, context 1
    is allocated and opened, and the new format is recorded. *)
Lemma encode_format_change_closes_then_reopens_witness :
  encoder_ctx after_first_frame = Some ctx_open_44k
  /\ format after_first_frame <> core.format frame_48k
  /\ exists o d' st post,
      encode backend_ok (Some frame_48k) after_first_frame trace_first_frame
      = Done o d'
             (trace_first_frame ++ st
                ++ Call_free_context 0
                :: Call_find_encoder_by_name "libfdk_aac" (Some libfdk_aac)
                :: [Call_alloc_context3 true;
                    Print_APP_Info core.Codec_encoder_init_success
                      "codec::AEPD::_init_encoder" INFO_LEVEL
                      (Some "Fraunhofer FDK AAC"%string);
                    Call_open2 1 0] ++ post)
      /\ (st = [] \/ exists b, st = [Call_frame_alloc b])
      /\ (post = [] \/ exists b, post = [Call_frame_alloc b])
      /\ encoder_ctx d' = Some (opened_context 1 1024)
      /\ format d' = format_48k.
Proof.
  assert (H1 : encoder_ctx after_first_frame = Some ctx_open_44k) by reflexivity.
  assert (H2 : format after_first_frame <> core.format frame_48k)
    by (simpl; discriminate).
  split; [exact H1|]. split; [exact H2|].
  destruct (encode_format_change_closes_then_reopens backend_ok frame_48k
              after_first_frame trace_first_frame ctx_open_44k H1 H2)
    as (o & d' & st & rest & E & Hst & _ & _ & Hok).
  destruct (Hok libfdk_aac eq_refl eq_refl)
    as (post & Hrest & Hpost & Hx & Hf & _).
  { simpl. lia. }
  subst rest. exists o, d', st, post.
  split; [exact E|]. split; [exact Hst|]. split; [exact Hpost|].
  split; [exact Hx|exact Hf].
Defined.

(** C7 as stated fails: the codec is found and its activation fails on
    the first frame; no session was ever opened and get_encoder_id returns
    the codec's identity, not zero. *)
Lemma get_encoder_id_nonzero_without_session :
  option_map (fun d => get_encoder_id {| _queue := None; d_ptr := d |})
             (state_of (encode backend_open_fails (Some frame_44k)
                               (new_private_data format0) []))
  = Some 86018
  /\ ever_opened (trace_of (encode backend_open_fails (Some frame_44k)
                                   (new_private_data format0) [])) = false.
Proof. split; reflexivity. Qed.

(** ** The worker's pause condition *)

(** C8, as the code has it.  get_thread_pause_condition returns true
    exactly when the queue pointer is null.  With a queue attached it
    returns false whether or not the queue has data, so the worker runs
    whenever it has a queue with data; when it returns true the queue is
    null, hence without ready data.  A round of on_thread_run on an
    attached queue with nothing ready encodes nothing. *)
Theorem pause_condition_iff_queue_null (ae : AudioEncoder) :
  (get_thread_pause_condition ae = true <-> _queue ae = None)
  /\ (forall q, _queue ae = Some q -> get_thread_pause_condition ae = false)
  /\ (get_thread_pause_condition ae = true -> queue_null_or_empty ae = true)
  /\ (forall B tr, _queue ae = Some {| ready := [] |} ->
                   on_thread_run B ae tr = Done ae (d_ptr ae) tr).
Proof.
  destruct ae as [q d]. unfold get_thread_pause_condition, queue_null_or_empty,
    on_thread_run. simpl.
  split; [|split; [|split]].
  - destruct q; split; congruence.
  - intros q0 ->. reflexivity.
  - destruct q; [discriminate|reflexivity].
  - intros B tr ->. reflexivity.
Qed.

Lemma pause_condition_iff_queue_null_witness :
  get_thread_pause_condition encoder_on_empty_queue = false
  /\ on_thread_run backend_ok encoder_on_empty_queue []
     = Done encoder_on_empty_queue (d_ptr encoder_on_empty_queue) [].
Proof.
  destruct (pause_condition_iff_queue_null encoder_on_empty_queue)
    as (_ & H2 & _ & H4).
  split.
  - apply (H2 {| ready := [] |}). reflexivity.
  - apply H4. reflexivity.
Defined.

(** C8 as stated fails: a queue is attached and has nothing ready, which
    C8 counts as a reason to pause, and the pause condition is
    false. *)
Lemma pause_condition_false_on_empty_queue :
  queue_null_or_empty encoder_on_empty_queue = true
  /\ get_thread_pause_condition encoder_on_empty_queue = false.
Proof. split; reflexivity. Qed.

(** ** select_sample_rate *)

Lemma wrap_int_small (z : Z) :
  -2147483648 <= z < 2147483648 -> wrap_int z = z.
Proof.
  intros H. unfold wrap_int. rewrite Z.mod_small; lia.
Qed.

(** On a rate that keeps the arithmetic inside [int], the distance the
    loop compares is the distance to 44100. *)
Lemma int_distance_exact (x : Z) :
  44100 - 2147483648 < x <= 2147483647 ->
  int_abs (int_sub 44100 x) = Z.abs (44100 - x).
Proof.
  intros H. unfold int_abs, int_sub.
  rewrite (wrap_int_small (44100 - x)) by lia.
  apply wrap_int_small. lia.
Qed.

(** The loop entered with a rate already chosen. *)
Lemma select_sample_rate_loop_spec (rates rest : list Z) :
  Forall rate_ok rates ->
  forall best,
    rate_ok best ->
    exists r,
      select_sample_rate_loop (rates ++ 0 :: rest) best = Some r
      /\ (r = best \/ In r rates)
      /\ Z.abs (44100 - r) <= Z.abs (44100 - best)
      /\ forall q, In q rates -> Z.abs (44100 - r) <= Z.abs (44100 - q).
Proof.
  induction 1 as [|x rates Hx Hrates IH]; intros best Hbest.
  - exists best. simpl. repeat split; auto; try lia; contradiction.
  - cbn [select_sample_rate_loop app In].
    destruct Hx as [Hx0 Hxr]. destruct Hbest as [Hb0 Hbr].
    apply Z.eqb_neq in Hx0 as Ex. apply Z.eqb_neq in Hb0 as Eb.
    rewrite Ex, Eb. cbn [orb].
    rewrite (int_distance_exact x Hxr), (int_distance_exact best Hbr).
    destruct (Z.abs (44100 - x) <? Z.abs (44100 - best)) eqn:Elt.
    + apply Z.ltb_lt in Elt.
      destruct (IH x (conj Hx0 Hxr)) as (r & E & Hin & Hle & Hall).
      exists r. split; [exact E|]. split; [|split].
      * right. destruct Hin as [-> | Hin]; auto.
      * lia.
      * intros q [<- | Hq]; auto.
    + apply Z.ltb_ge in Elt.
      destruct (IH best (conj Hb0 Hbr)) as (r & E & Hin & Hle & Hall).
      exists r. split; [exact E|]. split; [|split].
      * destruct Hin as [-> | Hin]; auto.
      * exact Hle.
      * intros q [<- | Hq]; [lia|auto].
Qed.

(** C9, as the code has it.  Without a supported-rate list (a null
    pointer) select_sample_rate returns 44100.  With a list that holds at
    least one rate (the rates stored before the terminating 0, each of
    them a rate on which the [int] arithmetic is exact) it returns a rate
    of the list, and no rate of the list is strictly closer to 44100.
    With a list that holds no rate it returns 0. *)
Theorem select_sample_rate_closest (codec : AVCodec) :
  (supported_samplerates codec = None ->
   select_sample_rate codec = Some 44100)
  /\ (forall rates rest,
        supported_samplerates codec = Some (rates ++ 0 :: rest) ->
        rates <> [] ->
        Forall rate_ok rates ->
        exists r,
          select_sample_rate codec = Some r
          /\ In r rates
          /\ forall q, In q rates ->
                       Z.abs (44100 - r) <= Z.abs (44100 - q))
  /\ (forall rest,
        supported_samplerates codec = Some ([] ++ 0 :: rest) ->
        select_sample_rate codec = Some 0).
Proof.
  unfold select_sample_rate. split; [|split].
  - intros ->. reflexivity.
  - intros rates rest -> Hne Hok.
    destruct rates as [|x rates]; [congruence|].
    inversion Hok as [|x' l' Hx Hrates]; subst.
    destruct (select_sample_rate_loop_spec rates rest Hrates x Hx)
      as (r & E & Hin & Hle & Hall).
    exists r. cbn [select_sample_rate_loop app In].
    destruct Hx as [Hx0 _]. apply Z.eqb_neq in Hx0 as Ex.
    rewrite Ex. cbn [Z.eqb orb]. split; [exact E|]. split.
    + destruct Hin as [-> | Hin]; [left; reflexivity|right; exact Hin].
    + intros q [<- | Hq]; [exact Hle|auto].
  - intros rest ->. reflexivity.
Qed.

(** C9 on the rates libfdk_aac is given here. *)
Lemma select_sample_rate_closest_witness :
  exists r,
    select_sample_rate libfdk_aac = Some r
    /\ In r [96000; 48000; 44100; 8000]
    /\ forall q, In q [96000; 48000; 44100; 8000] ->
                 Z.abs (44100 - r) <= Z.abs (44100 - q).
Proof.
  apply (proj1 (proj2 (select_sample_rate_closest libfdk_aac))
               [96000; 48000; 44100; 8000] []).
  - reflexivity.
  - discriminate.
  - repeat constructor; unfold rate_ok; lia.
Defined.

(** C9 as stated fails: the codec lists no rate (its array holds the
    terminator only); select_sample_rate returns 0, which is no rate of
    the list and is not 44100. *)
Lemma select_sample_rate_nothing_listed :
  supported_samplerates codec_without_rates = Some ([] ++ 0 :: [])
  /\ select_sample_rate codec_without_rates = Some 0
  /\ ~ In 0 (@nil Z)
  /\ 0 <> 44100.
Proof.
  split; [reflexivity|]. split; [reflexivity|]. split; [intros []|discriminate].
Qed.

(** A list that holds nothing but the terminator is the one case outside
    C9: the loop body never runs and the initial 0 comes back. *)
Lemma select_sample_rate_empty_list (c : AVCodec) (rest : list Z) :
  supported_samplerates c = Some (0 :: rest) ->
  select_sample_rate c = Some 0.
Proof. unfold select_sample_rate. intros ->. reflexivity. Qed.

(** C7 on one frame put to a new encoder. *)
Lemma get_encoder_id_follows_resolution_witness :
  ever_resolved
    (trace_of (encode_all backend_ok [Some frame_44k]
                          (new_private_data format0) [])) = true.
Proof.
  destruct (get_encoder_id_follows_resolution backend_ok format0 None
              [Some frame_44k]) as (d' & tr' & E & Hid & Hres).
  rewrite E. simpl. apply Hres. rewrite Hid.
  vm_compute in E. injection E as _ <-. vm_compute. discriminate.
Defined.

(** C10 on the first frame of a stream and on the staging step after
    it. *)
Lemma encode_stages_only_with_context_witness :
  (exists o d' tr',
      encode backend_ok (Some frame_44k) (new_private_data format0) []
      = Done o d' tr')
  /\ (exists b d2 tr2,
        alloc_encode_frame backend_ok after_first_open trace_first_open
        = Done b d2 tr2).
Proof.
  destruct (encode_stages_only_with_context backend_ok (Some frame_44k)
              (new_private_data format0) []) as (_ & _ & H3 & H4).
  split; [exact H4|]. apply H3. simpl. discriminate.
Defined.

(** ** The capability helpers *)

Lemma check_sample_fmt_loop_spec (fmts rest : list Z) (sample_fmt : Z) :
  Forall (fun x => x <> -1) fmts ->
  check_sample_fmt_loop (fmts ++ -1 :: rest) sample_fmt
  = Some (existsb (fun x => x =? sample_fmt) fmts).
Proof.
  induction 1 as [|x fmts Hx _ IH]; cbn [check_sample_fmt_loop app existsb].
  - reflexivity.
  - change (sample_fmt_value AV_SAMPLE_FMT_NONE) with (-1).
    apply Z.eqb_neq in Hx. rewrite Hx.
    destruct (x =? sample_fmt); [reflexivity|exact IH].
Qed.

(** X1.  On an array of sample formats that ends with AV_SAMPLE_FMT_NONE,
    check_sample_fmt returns true exactly when the format asked for is
    one of those listed before the terminator, and false otherwise; asked
    for AV_SAMPLE_FMT_NONE itself it returns false. *)
Theorem check_sample_fmt_membership
        (codec : AVCodecArrays) (fmts rest : list Z) (sample_fmt : Z) :
  sample_fmts codec = Some (fmts ++ -1 :: rest) ->
  Forall (fun x => x <> -1) fmts ->
  (exists b, check_sample_fmt codec sample_fmt = Some b
             /\ (b = true <-> In sample_fmt fmts))
  /\ check_sample_fmt codec (sample_fmt_value AV_SAMPLE_FMT_NONE) = Some false.
Proof.
  intros Hp Hok. unfold check_sample_fmt. rewrite Hp.
  rewrite !check_sample_fmt_loop_spec by exact Hok. split.
  - eexists. split; [reflexivity|]. rewrite existsb_exists. split.
    + intros (x & Hin & Hx). apply Z.eqb_eq in Hx. subst. exact Hin.
    + intros Hin. exists sample_fmt. split; [exact Hin|apply Z.eqb_refl].
  - f_equal. apply not_true_is_false. rewrite existsb_exists.
    intros (x & Hin & Hx). apply Z.eqb_eq in Hx.
    rewrite Forall_forall in Hok. apply (Hok x Hin). exact Hx.
Qed.

Lemma check_sample_fmt_membership_witness :
  (exists b, check_sample_fmt libfdk_aac_arrays 1 = Some b
             /\ (b = true <-> In 1 [1]))
  /\ check_sample_fmt libfdk_aac_arrays (sample_fmt_value AV_SAMPLE_FMT_NONE)
     = Some false.
Proof.
  apply (check_sample_fmt_membership libfdk_aac_arrays [1] [] 1).
  - reflexivity.
  - repeat constructor. discriminate.
Defined.

Section ChannelLayoutFacts.

Variable nb : Z -> Z.

(** The loop entered with a layout already chosen: the answer is that
    layout if nothing listed has more channels, and otherwise the first
    listed layout with the greatest channel count. *)
Lemma select_channel_layout_loop_spec (layouts rest : list Z) :
  Forall (fun x => x <> 0) layouts ->
  forall best best_nb,
    exists r,
      select_channel_layout_loop nb (layouts ++ 0 :: rest) best best_nb = Some r
      /\ ((r = best /\ forall q, In q layouts -> nb q <= best_nb)
          \/ exists pre post,
              layouts = pre ++ r :: post
              /\ best_nb < nb r
              /\ (forall q, In q pre -> nb q < nb r)
              /\ (forall q, In q post -> nb q <= nb r)).
Proof.
  induction 1 as [|x layouts Hx _ IH]; intros best best_nb;
    cbn [select_channel_layout_loop app].
  - exists best. split; [reflexivity|]. left. split; [reflexivity|].
    intros q [].
  - apply Z.eqb_neq in Hx. rewrite Hx.
    destruct (nb x >? best_nb) eqn:Egt.
    + apply Z.gtb_lt in Egt.
      destruct (IH x (nb x)) as (r & E & [[-> Hall] | (pre & post & -> & H1 & H2 & H3)]).
      * exists x. split; [exact E|]. right. exists [], layouts.
        repeat split; auto. intros q [].
      * exists r. split; [exact E|]. right. exists (x :: pre), post.
        repeat split; auto; try lia.
        intros q [<- | Hq]; [exact H1|auto].
    + assert (Hle : nb x <= best_nb).
      { destruct (Z.gtb_spec (nb x) best_nb); [discriminate|lia]. }
      destruct (IH best best_nb) as (r & E & [[-> Hall] | (pre & post & -> & H1 & H2 & H3)]).
      * exists best. split; [exact E|]. left. split; [reflexivity|].
        intros q [<- | Hq]; [exact Hle|auto].
      * exists r. split; [exact E|]. right. exists (x :: pre), post.
        repeat split; auto.
        intros q [<- | Hq]; [lia|auto].
Qed.

(** X2.  Without a layout list select_channel_layout returns stereo.
    With a list (the layouts stored before the terminating 0) it returns
    the first listed layout whose channel count is the greatest, when
    some listed layout has a positive channel count, and 0 when none
    has. *)
Theorem select_channel_layout_most_channels (codec : AVCodecArrays) :
  (channel_layouts codec = None ->
   select_channel_layout nb codec = Some AV_CH_LAYOUT_STEREO)
  /\ (forall layouts rest,
        channel_layouts codec = Some (layouts ++ 0 :: rest) ->
        Forall (fun x => x <> 0) layouts ->
        exists r,
          select_channel_layout nb codec = Some r
          /\ ((r = 0 /\ forall q, In q layouts -> nb q <= 0)
              \/ exists pre post,
                  layouts = pre ++ r :: post
                  /\ 0 < nb r
                  /\ (forall q, In q pre -> nb q < nb r)
                  /\ (forall q, In q post -> nb q <= nb r))).
Proof.
  unfold select_channel_layout. split.
  - intros ->. reflexivity.
  - intros layouts rest -> Hok.
    exact (select_channel_layout_loop_spec layouts rest Hok 0 0).
Qed.

End ChannelLayoutFacts.

Lemma select_channel_layout_most_channels_witness :
  exists r,
    select_channel_layout popcount64 libfdk_aac_arrays = Some r
    /\ ((r = 0 /\ forall q, In q [4; 3; 1551; 63] -> popcount64 q <= 0)
        \/ exists pre post,
            [4; 3; 1551; 63] = pre ++ r :: post
            /\ 0 < popcount64 r
            /\ (forall q, In q pre -> popcount64 q < popcount64 r)
            /\ (forall q, In q post -> popcount64 q <= popcount64 r)).
Proof.
  apply (proj2 (select_channel_layout_most_channels popcount64 libfdk_aac_arrays)
               [4; 3; 1551; 63] []).
  - reflexivity.
  - repeat constructor; discriminate.
Defined.

(** The loop of select_sample_rate entered with a rate already chosen:
    the answer is that rate if nothing listed is strictly closer, and
    otherwise the first listed rate at the least distance. *)
Lemma select_sample_rate_loop_first (rates rest : list Z) :
  Forall rate_ok rates ->
  forall best,
    rate_ok best ->
    exists r,
      select_sample_rate_loop (rates ++ 0 :: rest) best = Some r
      /\ ((r = best
           /\ forall q, In q rates -> distance_to_44100 best <= distance_to_44100 q)
          \/ exists pre post,
              rates = pre ++ r :: post
              /\ distance_to_44100 r < distance_to_44100 best
              /\ (forall q, In q pre -> distance_to_44100 r < distance_to_44100 q)
              /\ (forall q, In q post -> distance_to_44100 r <= distance_to_44100 q)).
Proof.
  unfold distance_to_44100.
  induction 1 as [|x rates Hx Hrates IH]; intros best Hbest;
    cbn [select_sample_rate_loop app].
  - exists best. split; [reflexivity|]. left. split; [reflexivity|].
    intros q [].
  - destruct Hx as [Hx0 Hxr]. destruct Hbest as [Hb0 Hbr].
    apply Z.eqb_neq in Hx0 as Ex. apply Z.eqb_neq in Hb0 as Eb.
    rewrite Ex, Eb. cbn [orb].
    rewrite (int_distance_exact x Hxr), (int_distance_exact best Hbr).
    destruct (Z.abs (44100 - x) <? Z.abs (44100 - best)) eqn:Elt.
    + apply Z.ltb_lt in Elt.
      destruct (IH x (conj Hx0 Hxr))
        as (r & E & [[-> Hall] | (pre & post & -> & H1 & H2 & H3)]).
      * exists x. split; [exact E|]. right. exists [], rates.
        repeat split; auto. intros q [].
      * exists r. split; [exact E|]. right. exists (x :: pre), post.
        repeat split; auto; try lia.
        intros q [<- | Hq]; [exact H1|auto].
    + apply Z.ltb_ge in Elt.
      destruct (IH best (conj Hb0 Hbr))
        as (r & E & [[-> Hall] | (pre & post & -> & H1 & H2 & H3)]).
      * exists best. split; [exact E|]. left. split; [reflexivity|].
        intros q [<- | Hq]; [exact Elt|auto].
      * exists r. split; [exact E|]. right. exists (x :: pre), post.
        repeat split; auto.
        intros q [<- | Hq]; [lia|auto].
Qed.

(** X3.  On a supported-rate list that holds at least one rate, each rate
    one on which the [int] arithmetic is exact (not 0, above
    44100 - 2^31 and at most 2^31 - 1), select_sample_rate returns the
    first listed rate at the least distance from 44100: every rate listed
    before it is strictly farther, every rate listed after it is at least
    as far. *)
Theorem select_sample_rate_first_closest
        (codec : AVCodec) (rates rest : list Z) :
  supported_samplerates codec = Some (rates ++ 0 :: rest) ->
  rates <> [] ->
  Forall rate_ok rates ->
  exists r pre post,
    select_sample_rate codec = Some r
    /\ rates = pre ++ r :: post
    /\ (forall q, In q pre -> distance_to_44100 r < distance_to_44100 q)
    /\ (forall q, In q post -> distance_to_44100 r <= distance_to_44100 q).
Proof.
  intros Hp Hne Hok. unfold select_sample_rate. rewrite Hp.
  destruct rates as [|x rates]; [congruence|].
  inversion Hok as [|x' l' Hx Hrates]; subst.
  cbn [select_sample_rate_loop app].
  destruct Hx as [Hx0 Hxr]. apply Z.eqb_neq in Hx0 as Ex.
  rewrite Ex. cbn [Z.eqb orb].
  destruct (select_sample_rate_loop_first rates rest Hrates x (conj Hx0 Hxr))
    as (r & E & [[-> Hall] | (pre & post & -> & H1 & H2 & H3)]).
  - exists x, [], rates. repeat split; auto. intros q [].
  - exists r, (x :: pre), post. repeat split; auto.
    intros q [<- | Hq]; [exact H1|auto].
Qed.

Lemma select_sample_rate_first_closest_witness :
  exists r pre post,
    select_sample_rate libfdk_aac = Some r
    /\ [96000; 48000; 44100; 8000] = pre ++ r :: post
    /\ (forall q, In q pre -> distance_to_44100 r < distance_to_44100 q)
    /\ (forall q, In q post -> distance_to_44100 r <= distance_to_44100 q).
Proof.
  apply (select_sample_rate_first_closest libfdk_aac
           [96000; 48000; 44100; 8000] []).
  - reflexivity.
  - discriminate.
  - repeat constructor; unfold rate_ok; lia.
Defined.

(** X4.  On a supported-rate list whose rates are all rates on which the
    [int] arithmetic is exact (not 0, above 44100 - 2^31 and at most
    2^31 - 1), select_sample_rate returns 44100 when 44100 is one of the
    listed rates. *)
Theorem select_sample_rate_exact_match
        (codec : AVCodec) (rates rest : list Z) :
  supported_samplerates codec = Some (rates ++ 0 :: rest) ->
  Forall rate_ok rates ->
  In 44100 rates ->
  select_sample_rate codec = Some 44100.
Proof.
  intros Hp Hok Hin. unfold select_sample_rate. rewrite Hp.
  destruct rates as [|x rates]; [contradiction|].
  inversion Hok as [|x' l' Hx Hrates]; subst.
  cbn [select_sample_rate_loop app].
  destruct Hx as [Hx0 Hxr]. apply Z.eqb_neq in Hx0 as Ex.
  rewrite Ex. cbn [Z.eqb orb].
  destruct (select_sample_rate_loop_first rates rest Hrates x (conj Hx0 Hxr))
    as (r & E & Hr).
  rewrite E. f_equal.
  assert (D : distance_to_44100 r <= distance_to_44100 44100).
  { destruct Hr as [[-> Hall] | (pre & post & -> & H1 & H2 & H3)].
    - destruct Hin as [<- | Hin]; [apply Z.le_refl|apply Hall, Hin].
    - destruct Hin as [<- | Hin]; [apply Z.lt_le_incl, H1|].
      apply in_app_or in Hin. destruct Hin as [Hin | [<- | Hin]].
      + apply Z.lt_le_incl, H2, Hin.
      + apply Z.le_refl.
      + apply H3, Hin. }
  unfold distance_to_44100 in D. lia.
Qed.

Lemma select_sample_rate_exact_match_witness :
  select_sample_rate libfdk_aac = Some 44100.
Proof.
  apply (select_sample_rate_exact_match libfdk_aac
           [96000; 48000; 44100; 8000] []).
  - reflexivity.
  - repeat constructor; unfold rate_ok; lia.
  - simpl. auto.
Defined.

(** ** Bookkeeping over a session's life *)

Lemma calls_cons (p : Event -> bool) (e : Event) (l : list Event) :
  calls p (e :: l) = ((if p e then 1 else 0) + calls p l)%nat.
Proof. unfold calls. simpl. destruct (p e); reflexivity. Qed.

Lemma frame_allocs_quiet (st : list Event) :
  Forall (fun e => is_frame_alloc e = true) st ->
  no_session_calls st /\ calls is_free_context st = 0%nat.
Proof.
  unfold no_session_calls.
  induction 1 as [|e st He _ IH].
  - repeat split; reflexivity.
  - destruct IH as ((I1 & I2 & I3 & I4 & I5 & I6) & I7).
    rewrite !calls_cons, I1, I2, I3, I4, I5, I6, I7.
    destruct e; simpl in He; try discriminate He. simpl. repeat split; reflexivity.
Qed.

Section Bookkeeping.

Variable B : Backend.

(** The staging step, with the staging frames counted. *)
Lemma alloc_encode_frame_account (d : AudioEncoderPrivateData)
      (tr : list Event) (c : AVCodecContext) :
  encoder_ctx d = Some c ->
  exists b d' fl,
    alloc_encode_frame B d tr = Done b d' (tr ++ fl)
    /\ Forall (fun e => is_frame_alloc e = true) fl
    /\ (calls is_frame_alloc_ok fl + frame_held d = frame_held d')%nat
    /\ encoder d' = encoder d
    /\ encoder_ctx d' = Some c
    /\ format d' = format d
    /\ (b = true ->
        encode_frame d' = Some (synced_frame c) /\ reassignment d' = false)
    /\ (b = false -> reassignment d' = reassignment d)
    /\ (b = true <-> encode_frame d' <> None /\ reassignment d = true).
Proof.
  intros Hc. destruct d as [e x f fr ra]. simpl in Hc. subst x.
  unfold_methods. unfold frame_held. simpl.
  destruct fr as [fr|]; simpl.
  - destruct ra; simpl.
    + exists true. eexists. exists []. rewrite app_nil_r. simpl.
      repeat split; auto; try discriminate.
    + exists false. eexists. exists []. rewrite app_nil_r. simpl.
      repeat split; auto; try discriminate. intros [_ H]. discriminate.
  - destruct (av_frame_alloc B (calls is_frame_alloc tr)) eqn:Ha; simpl.
    + destruct ra; simpl.
      * exists true. eexists. eexists. split; [reflexivity|]. simpl.
        repeat split; auto; try discriminate.
      * exists false. eexists. eexists. split; [reflexivity|]. simpl.
        repeat split; auto; try discriminate. intros [_ H]. discriminate.
    + exists false. eexists. eexists. split; [reflexivity|]. simpl.
      repeat split; auto; try discriminate. intros [H _]. congruence.
Qed.

(** close_ctx, with the contexts and staging frames counted. *)
Lemma close_ctx_account (d : AudioEncoderPrivateData) (tr : list Event) :
  exists d' fl,
    close_ctx B d tr = Done tt d' (tr ++ fl)
    /\ encoder_ctx d' = None
    /\ encoder d' = encoder d
    /\ format d' = format d
    /\ calls is_free_context fl = ctx_held d
    /\ (calls is_frame_alloc_ok fl + frame_held d = frame_held d')%nat
    /\ no_session_calls fl.
Proof.
  unfold ctx_held. destruct (encoder_ctx d) as [c|] eqn:Hc.
  - destruct (alloc_encode_frame_account d tr c Hc)
      as (b & d1 & st & E & Hst & Hfr & He & Hx & Hf & _).
    destruct (frame_allocs_quiet st Hst) as ((Q1 & Q2 & Q3 & Q4 & Q5 & Q6) & Q7).
    unfold close_ctx, encode_nullptr, encode_staging, bind, get. cbv beta.
    rewrite !Hc. cbv beta iota. rewrite E.
    assert (E' : free_context d1 (tr ++ st)
                 = Done tt (set_encoder_ctx None d1)
                        (tr ++ st ++ [Call_free_context (handle c)])).
    { unfold free_context, bind, get, emit, modify. rewrite Hx.
      rewrite <- app_assoc. reflexivity. }
    exists (set_encoder_ctx None d1), (st ++ [Call_free_context (handle c)]).
    split.
    { destruct b; unfold ret; exact E'. }
    unfold no_session_calls. rewrite !calls_app, Q1, Q2, Q3, Q4, Q5, Q6, Q7.
    unfold frame_held in *. simpl. repeat split; auto. rewrite <- Hfr.
    change (calls is_frame_alloc_ok [Call_free_context (handle c)]) with 0%nat.
    lia.
  - exists d, []. unfold close_ctx, bind, get, ret. rewrite Hc, app_nil_r.
    unfold no_session_calls. repeat split; auto.
Qed.

(** One open_ctx, with everything counted. *)
Lemma open_ctx_summary (p : core.FramePacket) (d : AudioEncoderPrivateData)
      (tr : list Event) :
  exists ok d' fl,
    open_ctx B p d tr = Done ok d' (tr ++ fl)
    /\ (calls is_alloc_context3_ok fl + ctx_held d
        = calls is_free_context fl + ctx_held d')%nat
    /\ (calls is_frame_alloc_ok fl + frame_held d = frame_held d')%nat
    /\ calls is_open2 fl = calls is_alloc_context3_ok fl
    /\ (session_wf d -> session_wf d')
    /\ (ok = true -> exists c, encoder_ctx d' = Some c)
    /\ (ok = true -> calls is_warning fl = 0%nat)
    /\ (ok = false -> (1 <= calls is_warning fl <= 2)%nat)
    /\ (format d' = format d
        \/ (ok = true /\ format d' = core.format p
            /\ calls is_open2_success fl = 1%nat)).
Proof.
  destruct (session_matches d (core.format p)) eqn:Hm.
  - rewrite (open_ctx_same_format B p d tr Hm).
    exists true, d, []. rewrite app_nil_r. split; [reflexivity|].
    split; [reflexivity|]. split; [reflexivity|]. split; [reflexivity|].
    split; [auto|]. split.
    { intros _. unfold session_matches in Hm.
      destruct (encoder_ctx d); [eauto|discriminate]. }
    split; [reflexivity|]. split; [discriminate|]. left. reflexivity.
  - rewrite (open_ctx_reopen B p d tr Hm).
    destruct (close_ctx_account d tr)
      as (d1 & fl & E & Hx & He & Hf & Cfree & Cframe & Q1 & Q2 & Q3 & Q4 & Q5 & Q6).
    unfold bind. rewrite E.
    rewrite (open_ctx_closed B p d1 (tr ++ fl) Hx). cbv zeta.
    set (r := avcodec_open2 B _).
    set (h := calls is_alloc_context3 (tr ++ fl)).
    set (fs := negotiated_frame_size B _).
    destruct (avcodec_find_encoder_by_name B _ _) as [codec|];
      [destruct (avcodec_alloc_context3 B h);
       [destruct (r <? 0) eqn:Eopen|]|];
      rewrite <- app_assoc; do 3 eexists; (split; [reflexivity|]);
      rewrite !calls_app, Cfree, Q3, Q4, Q5, Q6;
      unfold ctx_held, frame_held in *; unfold calls in *; simpl;
      rewrite ?Hf, ?Hx.
    + (* avcodec_open2 failed *)
      split; [lia|]. split; [lia|]. split; [reflexivity|]. split.
      { intros _ c Ec. injection Ec as <-. split; [discriminate|].
        repeat split. }
      split; [discriminate|]. split; [discriminate|]. split; [lia|].
      left. reflexivity.
    + (* everything succeeded *)
      apply Z.ltb_ge in Eopen.
      assert (El : (0 <=? r) = true) by (apply Z.leb_le; exact Eopen).
      rewrite El. simpl.
      split; [lia|]. split; [lia|]. split; [reflexivity|]. split.
      { intros _ c Ec. injection Ec as <-. split; [discriminate|].
        repeat split. }
      split; [eauto|]. split; [reflexivity|]. split; [discriminate|].
      right. auto.
    + (* avcodec_alloc_context3 failed *)
      split; [lia|]. split; [lia|]. split; [reflexivity|]. split.
      { intros _ c Ec. simpl in Ec. rewrite ?Hx in Ec. discriminate. }
      split; [discriminate|]. split; [discriminate|]. split; [lia|].
      left. reflexivity.
    + (* avcodec_find_encoder_by_name failed *)
      split; [lia|]. split; [lia|]. split; [reflexivity|]. split.
      { intros _ c Ec. simpl in Ec. rewrite ?Hx in Ec. discriminate. }
      split; [discriminate|]. split; [discriminate|]. split; [lia|].
      left. reflexivity.
Qed.

Lemma encode_staging_account (d : AudioEncoderPrivateData)
      (tr : list Event) (c : AVCodecContext) :
  encoder_ctx d = Some c ->
  exists o d' st,
    encode_staging B d tr = Done o d' (tr ++ st)
    /\ Forall (fun e => is_frame_alloc e = true) st
    /\ (calls is_frame_alloc_ok st + frame_held d = frame_held d')%nat
    /\ encoder d' = encoder d
    /\ encoder_ctx d' = Some c
    /\ format d' = format d
    /\ (o = EncodingStep \/ o = StagingRefused)
    /\ (o = EncodingStep ->
        encode_frame d' = Some (synced_frame c) /\ reassignment d' = false).
Proof.
  intros Hc.
  destruct (alloc_encode_frame_account d tr c Hc)
    as (b & d' & st & E & Hst & Hfr & He & Hx & Hf & Ht & _).
  unfold encode_staging, bind. rewrite E. destruct b; unfold ret.
  - exists EncodingStep, d', st. repeat split; auto; apply Ht; reflexivity.
  - exists StagingRefused, d', st. repeat split; auto; discriminate.
Qed.

Lemma session_wf_same (d d' : AudioEncoderPrivateData) :
  encoder d' = encoder d -> encoder_ctx d' = encoder_ctx d ->
  session_wf d -> session_wf d'.
Proof. unfold session_wf. intros -> ->. auto. Qed.

(** One call of [encode], with everything counted. *)
Lemma encode_summary (p : option core.FramePacket)
      (d : AudioEncoderPrivateData) (tr : list Event) :
  exists o d' fl,
    encode B p d tr = Done o d' (tr ++ fl)
    /\ (calls is_alloc_context3_ok fl + ctx_held d
        = calls is_free_context fl + ctx_held d')%nat
    /\ (calls is_frame_alloc_ok fl + frame_held d = frame_held d')%nat
    /\ calls is_open2 fl = calls is_alloc_context3_ok fl
    /\ (session_wf d -> session_wf d')
    /\ (o = EncodingStep ->
        exists c, encoder_ctx d' = Some c
                  /\ encode_frame d' = Some (synced_frame c)
                  /\ reassignment d' = false)
    /\ (o = OpenFailed -> (1 <= calls is_warning fl <= 2)%nat)
    /\ (o <> OpenFailed -> calls is_warning fl = 0%nat)
    /\ (format d' = format d
        \/ exists pk, p = Some pk /\ format d' = core.format pk
                      /\ calls is_open2_success fl = 1%nat
                      /\ o <> OpenFailed).
Proof.
  destruct p as [pk|].
  - destruct (open_ctx_summary pk d tr)
      as (ok & d1 & fl1 & E & A1 & A2 & A3 & A4 & A5 & A6 & A7 & A8).
    cbn [encode]. unfold bind. rewrite E. destruct ok; cbn [negb].
    + destruct (A5 eq_refl) as [c Hc].
      destruct (encode_staging_account d1 (tr ++ fl1) c Hc)
        as (o & d' & st & E' & Hst & Hfr & He & Hx & Hf & Ho & Hsync).
      destruct (frame_allocs_quiet st Hst) as ((Q1 & Q2 & Q3 & Q4 & Q5 & Q6) & Q7).
      exists o, d', (fl1 ++ st). rewrite app_assoc. split; [exact E'|].
      rewrite !calls_app, Q3, Q4, Q5, Q6, Q7, (A6 eq_refl).
      assert (Hh : ctx_held d' = ctx_held d1)
        by (unfold ctx_held; rewrite Hx, Hc; reflexivity).
      split; [lia|]. split; [lia|]. split; [lia|]. split.
      { intros Hwf. apply (session_wf_same d1 d'); auto. congruence. }
      split.
      { intros Eo. exists c. destruct (Hsync Eo). auto. }
      split; [intros ->; destruct Ho; discriminate|].
      split; [reflexivity|].
      destruct A8 as [A8 | (_ & A8 & A9)].
      * left. congruence.
      * right. exists pk. rewrite Nat.add_0_r.
        repeat split; try congruence. destruct Ho as [-> | ->]; discriminate.
    + exists OpenFailed, d1, fl1. split; [reflexivity|].
      split; [exact A1|]. split; [exact A2|]. split; [exact A3|].
      split; [exact A4|]. split; [discriminate|].
      split; [intros _; apply A7; reflexivity|].
      split; [intros H; contradiction H; reflexivity|].
      destruct A8 as [A8 | (A8 & _)]; [left; exact A8|discriminate].
  - cbn [encode]. unfold encode_nullptr, bind, get.
    destruct (encoder_ctx d) as [c|] eqn:Hc.
    + destruct (encode_staging_account d tr c Hc)
        as (o & d' & st & E' & Hst & Hfr & He & Hx & Hf & Ho & Hsync).
      destruct (frame_allocs_quiet st Hst) as ((Q1 & Q2 & Q3 & Q4 & Q5 & Q6) & Q7).
      exists o, d', st. split; [exact E'|].
      rewrite Q3, Q4, Q6, Q7.
      assert (Hh : ctx_held d' = ctx_held d)
        by (unfold ctx_held; rewrite Hx, Hc; reflexivity).
      split; [lia|]. split; [exact Hfr|]. split; [reflexivity|]. split.
      { intros Hwf. apply (session_wf_same d d'); auto. congruence. }
      split.
      { intros Eo. exists c. destruct (Hsync Eo). auto. }
      split; [intros ->; destruct Ho; discriminate|].
      split; [reflexivity|]. left. exact Hf.
    + exists NothingToFlush, d, []. unfold ret. rewrite app_nil_r.
      split; [reflexivity|].
      split; [reflexivity|]. split; [reflexivity|]. split; [reflexivity|].
      split; [auto|]. split; [discriminate|]. split; [discriminate|].
      split; [reflexivity|]. left. reflexivity.
Qed.

(** A run of [encode] calls, with everything counted. *)
Lemma encode_all_summary (ps : list (option core.FramePacket)) :
  forall d tr,
    exists d' fl,
      encode_all B ps d tr = Done tt d' (tr ++ fl)
      /\ (calls is_alloc_context3_ok fl + ctx_held d
          = calls is_free_context fl + ctx_held d')%nat
      /\ (calls is_frame_alloc_ok fl + frame_held d = frame_held d')%nat
      /\ calls is_open2 fl = calls is_alloc_context3_ok fl
      /\ (session_wf d -> session_wf d').
Proof.
  induction ps as [|p ps IH]; intros d tr.
  - exists d, []. rewrite app_nil_r. split; [reflexivity|].
    split; [reflexivity|]. split; [reflexivity|]. split; [reflexivity|]. auto.
  - destruct (encode_summary p d tr)
      as (o & d1 & fl1 & E & A1 & A2 & A3 & A4 & _).
    destruct (IH d1 (tr ++ fl1)) as (d' & fl2 & E2 & B1 & B2 & B3 & B4).
    exists d', (fl1 ++ fl2). cbn [encode_all]. unfold bind.
    rewrite E, E2, app_assoc. split; [reflexivity|].
    rewrite !calls_app. split; [lia|]. split; [lia|]. split; [lia|]. auto.
Qed.

(** X5.  After any run of [encode] calls on a new encoder, a context
    that the encoder holds carries the parameters of _set_encoder_param
    (signed 16 bit samples, 64000 bit/s, 44100 Hz, stereo, 2 channels),
    whatever the formats of the frames were, and comes with a resolved
    codec. *)
Theorem context_always_default_config
        (fmt0 : core.Format) (ps : list (option core.FramePacket)) :
  exists d' tr',
    encode_all B ps (new_private_data fmt0) [] = Done tt d' tr'
    /\ forall c, encoder_ctx d' = Some c ->
                 encoder d' <> None /\ default_config c.
Proof.
  destruct (encode_all_summary ps (new_private_data fmt0) [])
    as (d' & fl & E & _ & _ & _ & Hwf).
  exists d', fl. split; [exact E|].
  apply Hwf. intros c Hc. discriminate Hc.
Qed.

(** X6.  Contexts are neither leaked nor freed twice: after any run of
    [encode] calls on a new encoder the successful avcodec_alloc_context3
    calls outnumber the avcodec_free_context calls by one if the encoder
    holds a context and by none if it does not, and close_ctx, as the
    destructor calls it, evens the count. *)
Theorem contexts_allocated_and_freed
        (fmt0 : core.Format) (ps : list (option core.FramePacket)) :
  exists d' tr',
    encode_all B ps (new_private_data fmt0) [] = Done tt d' tr'
    /\ calls is_alloc_context3_ok tr'
       = (calls is_free_context tr' + ctx_held d')%nat
    /\ exists d'' tr'',
        close_ctx B d' tr' = Done tt d'' tr''
        /\ encoder_ctx d'' = None
        /\ calls is_alloc_context3_ok tr'' = calls is_free_context tr''.
Proof.
  destruct (encode_all_summary ps (new_private_data fmt0) [])
    as (d' & fl & E & A1 & _).
  destruct (close_ctx_account d' fl)
    as (d'' & fl2 & E2 & Hx & _ & _ & Cfree & _ & _ & _ & Q3 & _).
  change (ctx_held (new_private_data fmt0)) with 0%nat in A1.
  exists d', fl. split; [exact E|].
  split; [lia|].
  exists d'', (fl ++ fl2). split; [exact E2|]. split; [exact Hx|].
  rewrite !calls_app. lia.
Qed.

(** X7.  An activation is attempted once for every context allocated and
    never on a session that is reused: after any run of [encode] calls on
    a new encoder there are as many avcodec_open2 calls as successful
    avcodec_alloc_context3 calls. *)
Theorem activations_match_allocations
        (fmt0 : core.Format) (ps : list (option core.FramePacket)) :
  exists d' tr',
    encode_all B ps (new_private_data fmt0) [] = Done tt d' tr'
    /\ calls is_open2 tr' = calls is_alloc_context3_ok tr'.
Proof.
  destruct (encode_all_summary ps (new_private_data fmt0) [])
    as (d' & fl & E & _ & _ & A3 & _).
  exists d', fl. split; [exact E|exact A3].
Qed.

(** X8.  The staging frame is allocated at most once in the life of an
    encoder: after any run of [encode] calls on a new encoder at most one
    av_frame_alloc call has succeeded, and one has exactly when the
    encoder holds a staging frame. *)
Theorem staging_frame_allocated_once
        (fmt0 : core.Format) (ps : list (option core.FramePacket)) :
  exists d' tr',
    encode_all B ps (new_private_data fmt0) [] = Done tt d' tr'
    /\ (calls is_frame_alloc_ok tr' <= 1)%nat
    /\ (calls is_frame_alloc_ok tr' = 1%nat <-> encode_frame d' <> None).
Proof.
  destruct (encode_all_summary ps (new_private_data fmt0) [])
    as (d' & fl & E & _ & A2 & _).
  exists d', fl. split; [exact E|].
  change (frame_held (new_private_data fmt0)) with 0%nat in A2.
  unfold frame_held in A2.
  destruct (encode_frame d'); rewrite Nat.add_0_r in A2; rewrite A2.
  - split; [lia|]. split; [discriminate|reflexivity].
  - split; [lia|]. split; [discriminate|]. intros H. contradiction H. reflexivity.
Qed.

(** X9.  close_ctx is idempotent: it always returns and leaves no context,
    a second close_ctx right after it changes nothing, and neither does a
    flush call. *)
Theorem close_ctx_idempotent (d : AudioEncoderPrivateData) (tr : list Event) :
  (close_ctx B ;;; close_ctx B) d tr = close_ctx B d tr
  /\ exists d' tr',
      close_ctx B d tr = Done tt d' tr'
      /\ encoder_ctx d' = None
      /\ close_ctx B d' tr' = Done tt d' tr'
      /\ encode B None d' tr' = Done NothingToFlush d' tr'.
Proof.
  destruct (close_ctx_account d tr) as (d' & fl & E & Hx & _).
  assert (E2 : close_ctx B d' (tr ++ fl) = Done tt d' (tr ++ fl))
    by (unfold close_ctx, bind, get, ret; rewrite Hx; reflexivity).
  split.
  - unfold bind at 1. rewrite E. exact E2.
  - exists d', (tr ++ fl). split; [exact E|]. split; [exact Hx|].
    split; [exact E2|].
    cbn [encode]. unfold encode_nullptr, bind, get, ret. rewrite Hx. reflexivity.
Qed.

(** X10.  Whenever [encode] reaches the encoding step, with a frame or
    with the null packet, the encoder holds a context, the staging frame
    carries that context's frame size, sample format and channel layout,
    and the flag is clear. *)
Theorem encoding_step_has_synced_frame
        (p : option core.FramePacket) (d d' : AudioEncoderPrivateData)
        (tr tr' : list Event) :
  encode B p d tr = Done EncodingStep d' tr' ->
  exists c,
    encoder_ctx d' = Some c
    /\ encode_frame d'
       = Some {| nb_samples := frame_size c;
                 frame_format := sample_fmt_value (sample_fmt c);
                 frame_channel_layout := channel_layout c |}
    /\ reassignment d' = false.
Proof.
  intros E.
  destruct (encode_summary p d tr) as (o & d1 & fl & E1 & _ & _ & _ & _ & H & _).
  rewrite E in E1. injection E1 as <- <- _. apply H. reflexivity.
Qed.

(** X11.  [encode] leaves a warning on the trace exactly when it returns
    because open_ctx failed, one warning or two.  A call that goes on to
    the staging step leaves none, also when the staging step refuses it
    because av_frame_alloc failed. *)
Theorem warnings_only_when_open_fails
        (p : option core.FramePacket) (d : AudioEncoderPrivateData)
        (tr : list Event) :
  exists o d' fl,
    encode B p d tr = Done o d' (tr ++ fl)
    /\ (o = OpenFailed -> (1 <= calls is_warning fl <= 2)%nat)
    /\ (o <> OpenFailed -> calls is_warning fl = 0%nat).
Proof.
  destruct (encode_summary p d tr)
    as (o & d' & fl & E & _ & _ & _ & _ & _ & W1 & W2 & _).
  exists o, d', fl. auto.
Qed.

(** X12.  The flush call encode(nullptr), which is all on_thread_pause
    does, never touches the session: the codec, the context and the
    recorded format stay as they were, and the trace gains nothing, or
    the one av_frame_alloc of the staging step. *)
Theorem flush_leaves_session_untouched
        (d : AudioEncoderPrivateData) (tr : list Event) :
  exists o d' fl,
    on_thread_pause B d tr = Done o d' (tr ++ fl)
    /\ encoder d' = encoder d
    /\ encoder_ctx d' = encoder_ctx d
    /\ format d' = format d
    /\ (fl = [] \/ exists r, fl = [Call_frame_alloc r])
    /\ o <> OpenFailed.
Proof.
  unfold on_thread_pause. cbn [encode]. unfold encode_nullptr, bind, get.
  destruct (encoder_ctx d) as [c|] eqn:Hc.
  - destruct (encode_staging_spec B d tr c Hc)
      as (o & d' & fl & E & Hfl & He & Hx & Hf & Ho & _).
    exists o, d', fl. repeat split; auto; try congruence.
    destruct Ho as [-> | ->]; discriminate.
  - exists NothingToFlush, d, []. unfold ret. rewrite app_nil_r.
    repeat split; auto. discriminate.
Qed.

(** X13.  Once a frame has been staged (session open with format [f],
    staging frame allocated, flag clear), [encode] refuses every further
    frame of format [f] at the staging step and changes nothing, so a
    whole run of such frames leaves the object and the trace as they
    were. *)
Theorem same_format_frames_refused_after_first
        (f : core.Format) (ps : list core.FramePacket)
        (d : AudioEncoderPrivateData) (tr : list Event) (fr : AVFrame) :
  session_matches d f = true ->
  encode_frame d = Some fr ->
  reassignment d = false ->
  Forall (fun p => core.format p = f) ps ->
  (forall p, In p ps -> encode B (Some p) d tr = Done StagingRefused d tr)
  /\ drain B ps d tr = Done tt d tr.
Proof.
  intros Hm Hfr Hra Hps.
  assert (Hone : forall p, core.format p = f ->
                           encode B (Some p) d tr = Done StagingRefused d tr).
  { intros p <-. cbn [encode]. unfold bind.
    rewrite (open_ctx_same_format B p d tr Hm). cbn [negb].
    apply (staging_refused_when_flag_clear B d tr fr Hfr Hra). }
  split.
  - intros p Hin. apply Hone. rewrite Forall_forall in Hps. apply Hps, Hin.
  - induction Hps as [|p ps Hp _ IH]; [reflexivity|].
    rewrite drain_cons, (Hone p Hp). exact IH.
Qed.

(** X14.  The recorded format changes only in a call of [encode] that
    opens a session, and then to the packet's format: a flush call, a
    call on a frame of the recorded format and a call whose open_ctx
    fails all leave it as it was. *)
Theorem format_changes_only_when_opened
        (p : option core.FramePacket) (d : AudioEncoderPrivateData)
        (tr : list Event) :
  exists o d' fl,
    encode B p d tr = Done o d' (tr ++ fl)
    /\ (format d' <> format d ->
        exists pk, p = Some pk
                   /\ format d' = core.format pk
                   /\ calls is_open2_success fl = 1%nat
                   /\ o <> OpenFailed).
Proof.
  destruct (encode_summary p d tr)
    as (o & d' & fl & E & _ & _ & _ & _ & _ & _ & _ & [H | H]).
  - exists o, d', fl. split; [exact E|]. intros N. contradiction.
  - exists o, d', fl. split; [exact E|]. intros _. exact H.
Qed.

Lemma drain_counts_format_changes :
  (forall n, avcodec_find_encoder_by_name B n "libfdk_aac" <> None) ->
  (forall n, avcodec_alloc_context3 B n = true) ->
  (forall n, 0 <= avcodec_open2 B n) ->
  forall ps prev d tr,
    match prev with
    | None => encoder_ctx d = None
    | Some f => session_matches d f = true
    end ->
    exists d' fl,
      drain B ps d tr = Done tt d' (tr ++ fl)
      /\ calls is_find fl = format_changes prev ps
      /\ calls is_open2_success fl = format_changes prev ps
      /\ (ps <> [] -> encoder_ctx d' <> None).
Proof.
  intros Hfind Halloc Hopen.
  induction ps as [|p ps IH]; intros prev d tr Hprev.
  - exists d, []. rewrite app_nil_r. repeat split; auto; congruence.
  - destruct (encode_frame_step B p d tr)
      as (o & d1 & fl1 & E & Hsame & Hdiff & _).
    destruct (session_matches d (core.format p)) eqn:Hm.
    + destruct (Hsame eq_refl) as (Hm1 & A1 & _ & A3 & _).
      destruct (IH (Some (core.format p)) d1 (tr ++ fl1) Hm1)
        as (d' & fl2 & E2 & B1 & B2 & _).
      exists d', (fl1 ++ fl2). rewrite drain_cons, E, E2, app_assoc.
      split; [reflexivity|]. rewrite !calls_app, A1, A3, B1, B2.
      assert (Hc : (match prev with
                    | Some f => if core.Format_eqb f (core.format p) then 0 else 1
                    | None => 1
                    end = 0)%nat).
      { unfold session_matches in Hm, Hprev.
        destruct prev as [f|].
        - apply andb_true_iff in Hm as [_ Hm]. apply andb_true_iff in Hprev as [_ Hp].
          apply Format_eqb_eq in Hm, Hp. subst f. rewrite <- Hm.
          rewrite Format_eqb_refl. reflexivity.
        - rewrite Hprev in Hm. discriminate. }
      cbn [format_changes]. rewrite Hc. repeat split; auto.
      intros _. destruct ps as [|q ps'].
      * simpl in E2. unfold ret in E2. injection E2 as <- _.
        unfold session_matches in Hm1. destruct (encoder_ctx d1); [discriminate|discriminate].
      * destruct (IH (Some (core.format p)) d1 (tr ++ fl1) Hm1)
          as (d2 & fl3 & E3 & _ & _ & B4).
        rewrite E2 in E3. injection E3 as <- _. apply B4. discriminate.
    + destruct (Hdiff eq_refl) as (D1 & _ & _ & D4 & D5).
      specialize (D5 (Hfind _) (Halloc _) (Hopen _)).
      specialize (D4 D5).
      destruct (IH (Some (core.format p)) d1 (tr ++ fl1) D4)
        as (d' & fl2 & E2 & B1 & B2 & B4).
      exists d', (fl1 ++ fl2). rewrite drain_cons, E, E2, app_assoc.
      split; [reflexivity|]. rewrite !calls_app, D1, D5, B1, B2.
      assert (Hc : (match prev with
                    | Some f => if core.Format_eqb f (core.format p) then 0 else 1
                    | None => 1
                    end = 1)%nat).
      { destruct prev as [f|]; [|reflexivity].
        destruct (core.Format_eqb f (core.format p)) eqn:Ef; [|reflexivity].
        apply Format_eqb_eq in Ef. subst f. congruence. }
      cbn [format_changes]. rewrite Hc. repeat split; auto.
      intros _. destruct ps as [|q ps'].
      * simpl in E2. unfold ret in E2. injection E2 as <- _.
        unfold session_matches in D4. destruct (encoder_ctx d1); discriminate.
      * apply B4. discriminate.
Qed.

(** X15.  On a backend whose resolution, context allocation and
    activation never fail, a run of frames put to an encoder without a
    context resolves and opens the codec once for every stretch of
    consecutive frames of one format: as often as the format changes
    along the run, the first frame counted. *)
Theorem session_opened_once_per_format_run
        (ps : list core.FramePacket) (d : AudioEncoderPrivateData)
        (tr : list Event) :
  (forall n, avcodec_find_encoder_by_name B n "libfdk_aac" <> None) ->
  (forall n, avcodec_alloc_context3 B n = true) ->
  (forall n, 0 <= avcodec_open2 B n) ->
  encoder_ctx d = None ->
  exists d' fl,
    drain B ps d tr = Done tt d' (tr ++ fl)
    /\ calls is_find fl = format_changes None ps
    /\ calls is_open2_success fl = format_changes None ps
    /\ (ps <> [] -> encoder_ctx d' <> None).
Proof.
  intros Hfind Halloc Hopen Hc.
  exact (drain_counts_format_changes Hfind Halloc Hopen ps None d tr Hc).
Qed.

End Bookkeeping.

(** X10 on the first frame of a stream. *)
Lemma encoding_step_has_synced_frame_witness :
  encode backend_ok (Some frame_44k) (new_private_data format0) []
  = Done EncodingStep after_first_frame trace_first_frame
  /\ exists c,
      encoder_ctx after_first_frame = Some c
      /\ encode_frame after_first_frame
         = Some {| nb_samples := frame_size c;
                   frame_format := sample_fmt_value (sample_fmt c);
                   frame_channel_layout := channel_layout c |}
      /\ reassignment after_first_frame = false.
Proof.
  assert (E : encode backend_ok (Some frame_44k) (new_private_data format0) []
              = Done EncodingStep after_first_frame trace_first_frame)
    by reflexivity.
  split; [exact E|].
  exact (encoding_step_has_synced_frame backend_ok (Some frame_44k)
           (new_private_data format0) after_first_frame [] trace_first_frame E).
Defined.

(** X11 where the staging frame cannot be allocated: the call is refused
    at the staging step and no warning is left. *)
Lemma warnings_only_when_open_fails_witness :
  exists d' fl,
    encode backend_no_frame (Some frame_44k) (new_private_data format0) []
    = Done StagingRefused d' fl
    /\ calls is_warning fl = 0%nat.
Proof.
  destruct (warnings_only_when_open_fails backend_no_frame (Some frame_44k)
              (new_private_data format0) []) as (o & d' & fl & E & _ & W).
  assert (Eo : o = StagingRefused).
  { assert (C : encode backend_no_frame (Some frame_44k)
                       (new_private_data format0) []
                = Done o d' ([] ++ fl)) by exact E.
    vm_compute in C. injection C as Ho _ _. symmetry. exact Ho. }
  subst o. exists d', fl. split; [exact E|].
  apply W. discriminate.
Defined.

(** X13 on the encoder that has staged one frame at 44.1 kHz. *)
Lemma same_format_frames_refused_after_first_witness :
  drain backend_ok [frame_44k; frame_44k] after_first_frame trace_first_frame
  = Done tt after_first_frame trace_first_frame.
Proof.
  refine (proj2 (same_format_frames_refused_after_first backend_ok format_44k
                   [frame_44k; frame_44k] after_first_frame trace_first_frame
                   {| nb_samples := 1024; frame_format := 1;
                      frame_channel_layout := 3 |} _ _ _ _)).
  - reflexivity.
  - reflexivity.
  - reflexivity.
  - repeat constructor.
Defined.

(** X15 on two frames at 44.1 kHz followed by one at 48 kHz. *)
Lemma session_opened_once_per_format_run_witness :
  exists d' fl,
    drain backend_ok [frame_44k; frame_44k; frame_48k]
          (new_private_data format0) []
    = Done tt d' ([] ++ fl)
    /\ calls is_find fl = 2%nat
    /\ calls is_open2_success fl = 2%nat.
Proof.
  destruct (session_opened_once_per_format_run backend_ok
              [frame_44k; frame_44k; frame_48k] (new_private_data format0) [])
    as (d' & fl & E & H1 & H2 & _).
  - intros n. simpl. discriminate.
  - intros n. reflexivity.
  - intros n. simpl. lia.
  - reflexivity.
  - exists d', fl. split; [exact E|]. split; [exact H1|exact H2].
Defined.

Section Failures.

Variable B : Backend.

(** X16.  open_ctx returns false in three cases and no other, each of them
    after the test of line 128 has failed.  When the codec is not found,
    [encoder] and [encoder_ctx] are left null and the trace ends with the
    resolution and its warning.  When the context cannot be allocated,
    [encoder_ctx] is left null and the trace ends with the allocation and
    its warning.  When avcodec_open2 returns a negative value,
    [encoder_ctx] keeps the context allocated for the attempt, configured
    and never opened, and the trace ends with the avcodec_open2 call and
    its two warnings.  In all three the recorded format stays as it was.
    When the three calls succeed, or the test of line 128 holds, open_ctx
    returns true. *)
Theorem open_ctx_fails_by_cause
        (p : core.FramePacket) (d : AudioEncoderPrivateData) (tr : list Event) :
  let name := "libfdk_aac"%string in
  let found := avcodec_find_encoder_by_name B (calls is_find tr) name in
  let h := calls is_alloc_context3 tr in
  let allocated := avcodec_alloc_context3 B h in
  let r := avcodec_open2 B (calls is_open2 tr) in
  (session_matches d (core.format p) = true ->
   open_ctx B p d tr = Done true d tr)
  /\ (session_matches d (core.format p) = false ->
      exists ok d' fl,
        open_ctx B p d tr = Done ok d' (tr ++ fl)
        /\ (ok = false -> format d' = format d)
        /\ (found = None ->
            ok = false
            /\ encoder d' = None
            /\ encoder_ctx d' = None
            /\ exists pre,
                fl = pre ++
                       [Call_find_encoder_by_name name None;
                        Print_APP_Info core.Codec_encoder_not_found
                          "codec::AEPD::_init_encoder" WARNING_LEVEL
                          (Some name)])
        /\ (forall codec,
              found = Some codec -> allocated = false ->
              ok = false
              /\ encoder d' = Some codec
              /\ encoder_ctx d' = None
              /\ exists pre,
                  fl = pre ++
                         [Call_alloc_context3 false;
                          Print_APP_Info core.Codec_codec_context_alloc_failed
                            "codec::AEPD::_init_encoder" WARNING_LEVEL None])
        /\ (forall codec,
              found = Some codec -> allocated = true -> r < 0 ->
              ok = false
              /\ encoder d' = Some codec
              /\ encoder_ctx d' = Some (configured_context h)
              /\ exists pre,
                  fl = pre ++
                         [Call_open2 h r;
                          Print_APP_Info core.Codec_codec_open_failed
                            "codec::AEPD::open_ctx" WARNING_LEVEL None;
                          Print_FFMPEG_Info r "codec::AEPD::open_ctx"
                                            WARNING_LEVEL])
        /\ (forall codec,
              found = Some codec -> allocated = true -> 0 <= r ->
              ok = true)).
Proof.
  intros name found h allocated r. split.
  - apply open_ctx_same_format.
  - intros Hm.
    destruct (open_ctx_reopen_from_closed B p d tr Hm)
      as (d1 & fl & _ & Eo & Hx & He & Hf & _ & I1 & I2 & I3).
    rewrite Eo, (open_ctx_closed B p d1 _ Hx). cbv zeta.
    rewrite I1, I2, I3. fold name found h allocated r.
    destruct found as [codec|] eqn:Efound.
    + destruct allocated eqn:Ealloc.
      * destruct (r <? 0) eqn:Eopen.
        -- (* avcodec_open2 failed *)
           apply Z.ltb_lt in Eopen.
           rewrite <- app_assoc. do 3 eexists. split; [reflexivity|].
           split; [intros _; exact Hf|]. split; [discriminate|].
           split; [intros codec' _ F; discriminate|]. split.
           ++ intros codec' Ec _ _. injection Ec as <-.
              split; [reflexivity|]. split; [reflexivity|].
              split; [reflexivity|].
              eexists (fl ++ [_; _; _]). rewrite <- app_assoc. reflexivity.
           ++ intros codec' _ _ Hr. lia.
        -- (* everything succeeded *)
           apply Z.ltb_ge in Eopen.
           rewrite <- app_assoc. do 3 eexists. split; [reflexivity|].
           split; [discriminate|]. split; [discriminate|].
           split; [intros codec' _ F; discriminate|]. split.
           ++ intros codec' _ _ Hr. lia.
           ++ intros codec' _ _ _. reflexivity.
      * (* avcodec_alloc_context3 failed *)
        rewrite <- app_assoc. do 3 eexists. split; [reflexivity|].
        split; [intros _; exact Hf|]. split; [discriminate|]. split.
        -- intros codec' Ec _. injection Ec as <-.
           split; [reflexivity|]. split; [reflexivity|].
           split; [exact Hx|].
           eexists (fl ++ [_]). rewrite <- app_assoc. reflexivity.
        -- split; intros codec' _ F; discriminate.
    + (* avcodec_find_encoder_by_name failed *)
      rewrite <- app_assoc. do 3 eexists. split; [reflexivity|].
      split; [intros _; exact Hf|]. split.
      * intros _. split; [reflexivity|]. split; [reflexivity|].
        split; [exact Hx|].
        exists fl. reflexivity.
      * split; [intros codec' F; discriminate|].
        split; [intros codec' F; discriminate|].
        intros codec' F; discriminate.
Qed.

End Failures.

(** X16 on a new encoder whose first activation fails. *)
Lemma open_ctx_fails_by_cause_witness :
  exists d' fl,
    open_ctx backend_open_fails frame_44k (new_private_data format0) []
    = Done false d' ([] ++ fl)
    /\ encoder d' = Some libfdk_aac
    /\ encoder_ctx d' = Some (configured_context 0)
    /\ format d' = format0
    /\ exists pre,
        fl = pre ++
               [Call_open2 0 (-22);
                Print_APP_Info core.Codec_codec_open_failed
                  "codec::AEPD::open_ctx" WARNING_LEVEL None;
                Print_FFMPEG_Info (-22) "codec::AEPD::open_ctx" WARNING_LEVEL].
Proof.
  destruct (proj2 (open_ctx_fails_by_cause backend_open_fails frame_44k
                     (new_private_data format0) []) eq_refl)
    as (ok & d' & fl & E & Hfmt & _ & _ & Hopen & _).
  destruct (Hopen libfdk_aac eq_refl eq_refl) as (-> & He & Hx & Hpre).
  { simpl. lia. }
  exists d', fl. split; [exact E|]. split; [exact He|]. split; [exact Hx|].
  split; [exact (Hfmt eq_refl)|exact Hpre].
Defined.
